(** * MediHelp: the Streamlit medical information agent (medical.py)

    A shallow embedding of the script [medical.py].  The script is re-run by
    Streamlit from top to bottom on every interaction; one run reads the
    widgets, possibly calls the remote generation service up to six times,
    appends to the session's chat history and renders the page.

    External collaborators are kept as they are in the source:
    - the process environment ([os.getenv] after [load_dotenv]) is a finite
      map from variable names to values;
    - the remote client ([client.models.generate_content]) is an oracle that
      either returns a response envelope or raises an exception;
    - Pillow ([Image.open], [Image.save]) is a pair of fallible functions;
    - the Streamlit page is the ordered trace of the [st.*] calls made. *)

From Stdlib Require Import ZArith NArith Lia List.
From Stdlib.Strings Require Import Ascii String Byte.
From stdpp Require Import base option list strings pretty gmap.

(** ** Python values used by the script *)

(** [bytes] objects. *)
Abbreviation bytes := (list byte).

(** An exception is represented by its message, the text of [str(e)]. *)
Definition Exc (A : Type) : Type := A + string.

Definition raise {A} (msg : string) : Exc A := inr msg.

Definition exc_bind {A B} (m : Exc A) (k : A → Exc B) : Exc B :=
  match m with
  | inl a => k a
  | inr e => inr e
  end.

Notation "'try!' x ← m ; k" := (exc_bind m (λ x, k))
  (at level 100, x name, m at next level, k at level 200, right associativity,
   format "'[v' 'try!'  x  ←  m ; '/' k ']'").

(** ** Strings *)

Module Str.

Definition nl : string := String "010" EmptyString.

(** Python's [needle in hay] on [str]. *)
Fixpoint contains (needle hay : string) : bool :=
  String.prefix needle hay ||
  match hay with
  | EmptyString => false
  | String _ rest => contains needle rest
  end.

(** [str.lower] restricted to the ASCII letters. *)
Definition lower_ascii (c : ascii) : ascii :=
  let n := N_of_ascii c in
  if ((65 <=? n) && (n <=? 90))%N then ascii_of_N (n + 32) else c.

Fixpoint lower (s : string) : string :=
  match s with
  | EmptyString => EmptyString
  | String c rest => String (lower_ascii c) (lower rest)
  end.

(** Truthiness of a [str]: the empty string is false. *)
Definition truthy (s : string) : bool :=
  match s with
  | EmptyString => false
  | String _ _ => true
  end.

End Str.

(** ** Data model *)

(** The options of the sidebar's [st.selectbox("Gender", ...)]. *)
Inductive Gender := Male | Female | Other.

Definition gender_str (g : Gender) : string :=
  match g with
  | Male => "Male"
  | Female => "Female"
  | Other => "Other"
  end.

(** The widget values of one run of the script.  [st.chat_input] returns
    [None] unless a message was just submitted; [st.number_input] with
    integer bounds returns an [int]. *)
Record Widgets := {
  name : string;
  age : Z;
  gender : Gender;
  user_input : option string;
  disease_name : string
}.

(** [if user_input:] on [None] or a [str]. *)
Definition opt_truthy (s : option string) : bool :=
  match s with
  | None => false
  | Some s => Str.truthy s
  end.

(** Entries of [st.session_state.chat_history] are pairs [(role, msg)]. *)
Inductive Role := User | Assistant.

Definition role_str (r : Role) : string :=
  match r with
  | User => "user"
  | Assistant => "assistant"
  end.

(** [msg] is a [str], or [None] when [response.text] is [None]. *)
Definition ConversationTurn : Type := Role * option string.

(** *** The response envelope of [google.genai] *)

Record Blob := {
  mime_type : option string;
  data : option bytes
}.

Record Part := {
  part_text : option string;
  inline_data : option Blob
}.

Record Content := { parts : option (list Part) }.

Record Candidate := { content : option Content }.

(** [text] holds the value of the library's [text] property. *)
Record GenerateContentResponse := {
  text : option string;
  candidates : option (list Candidate)
}.

(** *** Requests *)

Inductive Modality := TEXT | IMAGE.

(** [contents=[prompt]] for the text calls, [contents=prompt] for the image
    calls. *)
Inductive Contents :=
  | ContentsList (items : list string)
  | ContentsStr (item : string).

Record GenerationRequest := {
  model : string;
  contents : Contents;
  response_modalities : option (list Modality)
}.

(** ** External collaborators *)

(** [client.models.generate_content]: the first argument is the number of
    calls already issued in the run, so that two calls with equal requests
    may behave differently. *)
Class GenaiClient := {
  generate_content : nat → GenerationRequest → Exc GenerateContentResponse
}.

(** Pillow: [Image.open(BytesIO(b))] and [img.save(buffered, format="PNG")]
    followed by [buffered.getvalue()]. *)
Class Pillow := {
  Image : Type;
  Image_open : bytes → Exc Image;
  Image_save_PNG : Image → Exc bytes
}.

(** ** base64

    [base64.b64encode(b).decode()] with the standard alphabet and padding
    (RFC 4648, section 4), and the matching strict decoder. *)

Module Base64.

Definition alphabet : string :=
  "ABCDEFGHIJKLMNOPQRSTUVWXYZabcdefghijklmnopqrstuvwxyz0123456789+/".

Definition pad : ascii := "="%char.

Definition char_of_sextet (n : N) : ascii :=
  match String.get (N.to_nat n) alphabet with
  | Some c => c
  | None => pad
  end.

Fixpoint index_of (c : ascii) (s : string) : option N :=
  match s with
  | EmptyString => None
  | String d rest =>
      if Ascii.eqb c d then Some 0%N else N.succ <$> index_of c rest
  end.

Definition sextet_of_char (c : ascii) : option N := index_of c alphabet.

(** Three input bytes give four characters; a final group of one or two
    bytes is zero-filled and padded with [=]. *)
Fixpoint b64encode (bs : bytes) : string :=
  match bs with
  | [] => ""
  | [a] =>
      let x := Byte.to_N a in
      String (char_of_sextet (x / 4))
        (String (char_of_sextet (x mod 4 * 16))
           (String pad (String pad "")))
  | [a; b] =>
      let x := Byte.to_N a in
      let y := Byte.to_N b in
      String (char_of_sextet (x / 4))
        (String (char_of_sextet (x mod 4 * 16 + y / 16))
           (String (char_of_sextet (y mod 16 * 4)) (String pad "")))
  | a :: b :: c :: rest =>
      let x := Byte.to_N a in
      let y := Byte.to_N b in
      let z := Byte.to_N c in
      String (char_of_sextet (x / 4))
        (String (char_of_sextet (x mod 4 * 16 + y / 16))
           (String (char_of_sextet (y mod 16 * 4 + z / 64))
              (String (char_of_sextet (z mod 64)) (b64encode rest))))
  end%N.

Definition is_empty (s : string) : bool :=
  match s with
  | EmptyString => true
  | String _ _ => false
  end.

Fixpoint b64decode (s : string) : option bytes :=
  match s with
  | EmptyString => Some []
  | String c1 (String c2 (String c3 (String c4 rest))) =>
      s1 ← sextet_of_char c1;
      s2 ← sextet_of_char c2;
      b1 ← Byte.of_N (s1 * 4 + s2 / 16);
      if Ascii.eqb c3 pad then
        if Ascii.eqb c4 pad && is_empty rest then Some [b1] else None
      else
        s3 ← sextet_of_char c3;
        b2 ← Byte.of_N (s2 mod 16 * 16 + s3 / 4);
        if Ascii.eqb c4 pad then
          if is_empty rest then Some [b1; b2] else None
        else
          s4 ← sextet_of_char c4;
          b3 ← Byte.of_N (s3 mod 4 * 64 + s4);
          tl ← b64decode rest;
          Some (b1 :: b2 :: b3 :: tl)
  | _ => None
  end%N.

End Base64.

(** ** Prompt construction (the f-strings of the script) *)

(** Indentation of the lines inside the triple-quoted literals. *)
Definition indent : string := "        ".

(** Lines 47-60. *)
Definition text_prompt (name : string) (age : Z) (gender : Gender)
    (user_input : string) : string :=
  Str.nl +:+
  indent +:+ "You are a helpful, trustworthy medical assistant AI. Use only verified sources like WHO, Mayo Clinic, and WebMD." +:+ Str.nl +:+
  indent +:+ "Patient Name: " +:+ name +:+ Str.nl +:+
  indent +:+ "Age: " +:+ pretty age +:+ Str.nl +:+
  indent +:+ "Gender: " +:+ gender_str gender +:+ Str.nl +:+
  Str.nl +:+
  indent +:+ "The user asked: " +:+ user_input +:+ Str.nl +:+
  Str.nl +:+
  indent +:+ "Provide clear, trustworthy, and actionable information. Include:" +:+ Str.nl +:+
  indent +:+ "- Symptoms" +:+ Str.nl +:+
  indent +:+ "- Treatments" +:+ Str.nl +:+
  indent +:+ "- Medicines" +:+ Str.nl +:+
  indent +:+ "- Nutrition suggestions (if applicable)" +:+ Str.nl +:+
  indent.

(** Line 83. *)
Definition nutrition_prompt (age : Z) (gender : Gender) (user_input : string)
    : string :=
  "Photorealistic nutrition plate for a person with symptoms or condition described as: '"
  +:+ user_input +:+ "'. Age: " +:+ pretty age +:+ ", Gender: "
  +:+ gender_str gender +:+ ". Based on WHO or Mayo Clinic guidance.".

(** Line 111. *)
Definition medicine_prompt (user_input : string) : string :=
  "High-resolution image of common medicines or treatment kits based on symptoms: '"
  +:+ user_input +:+ "', using WHO or Mayo Clinic guidance. White background.".

(** Lines 143-153. *)
Definition disease_prompt (disease_name : string) : string :=
  Str.nl +:+
  indent +:+ "You are a trusted medical assistant. Give a comprehensive explanation about the disease: " +:+ disease_name +:+ "." +:+ Str.nl +:+
  indent +:+ "Use only WHO, Mayo Clinic, or WebMD as your references." +:+ Str.nl +:+
  Str.nl +:+
  indent +:+ "Include:" +:+ Str.nl +:+
  indent +:+ "- Description of the disease" +:+ Str.nl +:+
  indent +:+ "- Common symptoms" +:+ Str.nl +:+
  indent +:+ "- Recommended treatments" +:+ Str.nl +:+
  indent +:+ "- Suggested medicines (generic if possible)" +:+ Str.nl +:+
  indent +:+ "- Nutrition advice if relevant" +:+ Str.nl +:+
  indent.

(** Line 166. *)
Definition disease_nutrition_prompt (age : Z) (gender : Gender)
    (disease_name : string) : string :=
  "Photorealistic nutrition plate for a person with " +:+ disease_name
  +:+ ", based on WHO/Mayo Clinic dietary guidance. Age: " +:+ pretty age
  +:+ ", Gender: " +:+ gender_str gender +:+ ".".

(** Line 192. *)
Definition disease_medicine_prompt (disease_name : string) : string :=
  "High-resolution image of common medicines or treatment kits for "
  +:+ disease_name +:+ ", recommended by WHO or Mayo Clinic. White background.".

(** The content markers of the symptom-query prompt, as the bullet lines
    spell them and as the words the specification lists. *)
Definition marker_lines : list string :=
  ["- Symptoms"; "- Treatments"; "- Medicines";
   "- Nutrition suggestions (if applicable)"].

Definition marker_words : list string :=
  ["symptoms"; "treatments"; "medicines"; "nutrition"].

(** ** Requests *)

Definition text_request (prompt : string) : GenerationRequest :=
  {| model := "gemini-2.5-flash-preview-05-20";
     contents := ContentsList [prompt];
     response_modalities := None |}.

Definition image_request (prompt : string) : GenerationRequest :=
  {| model := "gemini-2.0-flash-preview-image-generation";
     contents := ContentsStr prompt;
     response_modalities := Some [TEXT; IMAGE] |}.

(** The three requests of the chat tab (lines 64-67, 87-91, 115-119) and of
    the disease tab (lines 157-160, 169-173, 195-199). *)
Definition chat_text_request (w : Widgets) (q : string) : GenerationRequest :=
  text_request (text_prompt (name w) (age w) (gender w) q).

Definition chat_nutrition_request (w : Widgets) (q : string)
    : GenerationRequest :=
  image_request (nutrition_prompt (age w) (gender w) q).

Definition chat_medicine_request (q : string) : GenerationRequest :=
  image_request (medicine_prompt q).

Definition disease_text_request (d : string) : GenerationRequest :=
  text_request (disease_prompt d).

Definition disease_nutrition_request (w : Widgets) (d : string)
    : GenerationRequest :=
  image_request (disease_nutrition_prompt (age w) (gender w) d).

Definition disease_medicine_request (d : string) : GenerationRequest :=
  image_request (disease_medicine_prompt d).

(** ** Extraction of the image bytes *)

(** Truthiness of [bytes] or [None]. *)
Definition bytes_truthy (b : option bytes) : bool :=
  match b with
  | Some (_ :: _) => true
  | _ => false
  end.

(** [part.inline_data and part.inline_data.data]: a [Blob] object is always
    true, so the conjunction is the truthiness of its [data]. *)
Definition carries_inline_data (part : Part) : bool :=
  match inline_data part with
  | None => false
  | Some blob => bytes_truthy (data blob)
  end.

(** A part whose envelope is there while its [data] is [None] or [b""]. *)
Definition empty_envelope (part : Part) : Prop :=
  ∃ blob, inline_data part = Some blob
          ∧ (data blob = None ∨ data blob = Some []).

(** [next((part.inline_data.data for part in parts if ...), None)]. *)
Fixpoint next_inline_data (ps : list Part) : option bytes :=
  match ps with
  | [] => None
  | part :: rest =>
      if carries_inline_data part
      then blob ← inline_data part; data blob
      else next_inline_data rest
  end.

(** [response.candidates[0].content.parts], with the exceptions Python raises
    on a missing link of the chain. *)
Definition response_parts (r : GenerateContentResponse) : Exc (list Part) :=
  match candidates r with
  | None => raise "'NoneType' object is not subscriptable"
  | Some [] => raise "list index out of range"
  | Some (c :: _) =>
      match content c with
      | None => raise "'NoneType' object has no attribute 'parts'"
      | Some ct =>
          match parts ct with
          | None => raise "'NoneType' object is not iterable"
          | Some ps => inl ps
          end
      end
  end.

(** Lines 92-95 (and 120-123, 174-177, 200-203). *)
Definition img_bytes (r : GenerateContentResponse) : Exc (option bytes) :=
  try! ps ← response_parts r;
  inl (next_inline_data ps).

(** The same expression under its name in the medicine sections. *)
Definition med_img_bytes (r : GenerateContentResponse) : Exc (option bytes) :=
  img_bytes r.

(** Lines 97-100: decode, re-encode as PNG, base64. *)
Definition img_str `{Pillow} (raw : bytes) : Exc string :=
  try! img ← Image_open raw;
  try! buffered ← Image_save_PNG img;
  inl (Base64.b64encode buffered).

(** ** The Streamlit page *)

(** The [st.*] calls of the script, in the order they are made.  The
    container a call is made in (sidebar, tab) is not recorded. *)
Inductive UiEvent :=
  | st_error (body : string)
  | st_warning (body : string)
  | st_stop
  | st_set_page_config (page_title page_icon : string)
  | st_title (body : string)
  | st_markdown (body : option string) (unsafe_allow_html : bool)
  | st_header (body : string)
  | st_subheader (body : string)
  | st_text_input (label key : string)
  | st_number_input (label : string) (min_value max_value step : Z) (key : string)
  | st_selectbox (label : string) (options : list string) (key : string)
  | st_tabs (labels : list string)
  | st_chat_input (placeholder : string)
  | st_spinner (label : string)
  | st_chat_message (role : string) (msg : option string).

(** ** State of one run *)

Record RunState := {
  chat_history : list ConversationTurn;
  calls : list GenerationRequest;
  page : list UiEvent
}.

Definition St (A : Type) : Type := RunState → A * RunState.

Definition ret {A} (a : A) : St A := λ s, (a, s).

Definition bind {A B} (m : St A) (k : A → St B) : St B :=
  λ s, let '(a, s') := m s in k a s'.

Notation "'do' x ← m ; k" := (bind m (λ x, k))
  (at level 100, x name, m at next level, k at level 200, right associativity,
   format "'[v' 'do'  x  ←  m ; '/' k ']'").

Notation "m ;; k" := (bind m (λ _, k))
  (at level 100, k at level 200, right associativity,
   format "'[v' m ;; '/' k ']'").

Definition exec {A} (m : St A) (s : RunState) : RunState := (m s).2.

Definition emit (e : UiEvent) : St unit :=
  λ s, (tt, {| chat_history := chat_history s;
               calls := calls s;
               page := page s ++ [e] |}).

Fixpoint emit_all (es : list UiEvent) : St unit :=
  match es with
  | [] => ret tt
  | e :: rest => emit e;; emit_all rest
  end.

(** [st.session_state.chat_history.append(turn)]. *)
Definition history_append (turn : ConversationTurn) : St unit :=
  λ s, (tt, {| chat_history := chat_history s ++ [turn];
               calls := calls s;
               page := page s |}).

Definition get_history : St (list ConversationTurn) :=
  λ s, (chat_history s, s).

(** One remote call: it is logged, and its outcome is the oracle's. *)
Definition call `{GenaiClient} (req : GenerationRequest)
    : St (Exc GenerateContentResponse) :=
  λ s, (generate_content (length (calls s)) req,
        {| chat_history := chat_history s;
           calls := calls s ++ [req];
           page := page s |}).

(** ** The sections of the page *)

(** [if topic:] with the body receiving the (non-empty) topic. *)
Definition if_topic (topic : option string) (body : string → St unit)
    : St unit :=
  match topic with
  | Some q => if Str.truthy q then body q else ret tt
  | None => ret tt
  end.

(** Lines 63-72: the value bound to [response_text] on either path of the
    [try]. *)
Definition response_text (r : Exc GenerateContentResponse) : option string :=
  match r with
  | inl text_response => text text_response
  | inr e => Some ("Error generating medical info: " +:+ e)
  end.

(** Lines 44-72. *)
Definition chat_block `{GenaiClient} (w : Widgets) (q : string) : St unit :=
  history_append (User, Some q);;
  emit (st_spinner "Generating response...");;
  do r ← call (chat_text_request w q);
  history_append (Assistant, response_text r).

(** Lines 75-79. *)
Definition show_turn (turn : ConversationTurn) : UiEvent :=
  match turn.1 with
  | User => st_chat_message "user" turn.2
  | Assistant => st_chat_message "assistant" turn.2
  end.

Definition display_history : St unit :=
  do h ← get_history;
  emit_all (show_turn <$> h).

(** The two kinds of image section differ in their texts only. *)
Inductive ImageKind := Nutrition | Medicine.

Definition spinner_label (k : ImageKind) : string :=
  match k with
  | Nutrition => "Generating nutrition image..."
  | Medicine => "Generating medicine image..."
  end.

Definition heading (k : ImageKind) : string :=
  match k with
  | Nutrition => "<h4 style='text-align:center;'>Nutrition Suggestion</h4>"
  | Medicine => "<h4 style='text-align:center;'>Medicine Reference</h4>"
  end.

Definition img_tag (b64 : string) : string :=
  "<div style='text-align:center;'><img src='data:image/png;base64," +:+ b64
  +:+ "' style='max-width:100%; border-radius:15px; box-shadow: 0 10px 20px rgba(0,0,0,0.2);'/></div>".

Definition no_image_text (k : ImageKind) : string :=
  match k with
  | Nutrition => "No nutrition image received."
  | Medicine => "No medicine image received."
  end.

Definition error_prefix (k : ImageKind) : string :=
  match k with
  | Nutrition => "Nutrition image error: "
  | Medicine => "Medicine image error: "
  end.

(** The body of the [try] of an image section after the call returned or
    raised: what it displays, or the exception that leaves it.  Every
    statement that can raise comes before the first [st.*] call. *)
Definition image_try `{Pillow} (k : ImageKind)
    (r : Exc GenerateContentResponse) : Exc (list UiEvent) :=
  try! response ← r;
  try! found ← img_bytes response;
  match found with
  | Some (b :: raw) =>
      try! b64 ← img_str (b :: raw);
      inl [st_markdown (Some (heading k)) true;
           st_markdown (Some (img_tag b64)) true]
  | _ => inl [st_warning (no_image_text k)]
  end.

(** The [try] with its [except Exception as e] handler. *)
Definition image_view `{Pillow} (k : ImageKind)
    (r : Exc GenerateContentResponse) : list UiEvent :=
  match image_try k r with
  | inl shown => shown
  | inr e => [st_error (error_prefix k +:+ e)]
  end.

(** Lines 85-107, 113-135, 167-189, 193-215. *)
Definition image_section `{GenaiClient} `{Pillow} (k : ImageKind)
    (req : GenerationRequest) : St unit :=
  emit (st_spinner (spinner_label k));;
  do r ← call req;
  emit_all (image_view k r).

(** Lines 40-135. *)
Definition tab1 `{GenaiClient} `{Pillow} (w : Widgets) : St unit :=
  emit (st_subheader "Chat with the Medical Agent");;
  emit (st_chat_input "Describe your symptoms or ask a health-related question");;
  if_topic (user_input w) (chat_block w);;
  display_history;;
  if_topic (user_input w) (λ q,
    image_section Nutrition (chat_nutrition_request w q));;
  if_topic (user_input w) (λ q,
    image_section Medicine (chat_medicine_request q)).

(** Lines 156-163. *)
Definition disease_view (r : Exc GenerateContentResponse) : UiEvent :=
  match r with
  | inl response => st_markdown (text response) false
  | inr e => st_error ("Error generating disease info: " +:+ e)
  end.

Definition disease_block `{GenaiClient} `{Pillow} (w : Widgets) (d : string)
    : St unit :=
  emit (st_spinner "Generating disease information...");;
  do r ← call (disease_text_request d);
  emit (disease_view r);;
  image_section Nutrition (disease_nutrition_request w d);;
  image_section Medicine (disease_medicine_request d).

(** Lines 138-215. *)
Definition tab2 `{GenaiClient} `{Pillow} (w : Widgets) : St unit :=
  emit (st_subheader "Get Information About a Disease");;
  emit (st_text_input "Enter Disease Name" "disease_name");;
  if_topic (Some (disease_name w)) (disease_block w).

(** ** The script *)

(** [load_dotenv()]: variables of the [.env] file are added to the process
    environment unless already set there. *)
Definition load_dotenv (dotenv environ : gmap string string)
    : gmap string string :=
  environ ∪ dotenv.

Definition os_getenv (environ : gmap string string) (key : string)
    : option string :=
  environ !! key.

(** What one run of the script leaves behind. *)
Record Outcome := {
  session_chat_history : option (list ConversationTurn);
  remote_calls : list GenerationRequest;
  rendered : list UiEvent
}.

(** Lines 21-37: page header, sidebar and tabs. *)
Definition page_top : St unit :=
  emit (st_set_page_config "Medical Information Agent" "🩺");;
  emit (st_title "🩺 AI Medical Information Agent");;
  emit (st_markdown (Some "Get symptoms, treatments, medicines, and nutrition advice using trusted sources like WHO, Mayo Clinic, and WebMD.") false);;
  emit (st_header "User Information");;
  emit (st_text_input "Name" "name");;
  emit (st_number_input "Age" 0 120 1 "age");;
  emit (st_selectbox "Gender" ["Male"; "Female"; "Other"] "gender");;
  emit (st_tabs ["💬 Chat with Agent"; "🦠 Disease Info"]).

(** Line 218. *)
Definition footer : St unit :=
  emit (st_markdown (Some "<footer style='text-align:center; margin-top:3rem;'>Powered by Gemini 2.5 Flash & Gemini Image API</footer>") true).

(** Lines 21-218, run once the key was found. *)
Definition body `{GenaiClient} `{Pillow} (w : Widgets) : St unit :=
  page_top;;
  tab1 w;;
  tab2 w;;
  footer.

(** Lines 26-27: the history is created only when the session has none. *)
Definition init_history (session : option (list ConversationTurn))
    : list ConversationTurn :=
  match session with
  | None => []
  | Some h => h
  end.

(** One run of [medical.py].  Building the client (line 18) has no effect
    on the page, the session or the calls and is not represented. *)
Definition main `{GenaiClient} `{Pillow} (dotenv environ : gmap string string)
    (session : option (list ConversationTurn)) (w : Widgets) : Outcome :=
  let api_key := os_getenv (load_dotenv dotenv environ) "GOOGLE_API_KEY" in
  if negb (opt_truthy api_key) then
    {| session_chat_history := session;
       remote_calls := [];
       rendered := [st_error "Missing GOOGLE_API_KEY in .env"; st_stop] |}
  else
    let s := exec (body w) {| chat_history := init_history session;
                              calls := [];
                              page := [] |} in
    {| session_chat_history := Some (chat_history s);
       remote_calls := calls s;
       rendered := page s |}.

(** A session is a sequence of runs, each with its own widget values and
    its own behaviour of the remote service and of Pillow. *)
Record Interaction := {
  i_client : GenaiClient;
  i_pillow : Pillow;
  i_dotenv : gmap string string;
  i_environ : gmap string string;
  i_widgets : Widgets
}.

Definition step (session : option (list ConversationTurn)) (i : Interaction)
    : option (list ConversationTurn) :=
  session_chat_history
    (@main (i_client i) (i_pillow i) (i_dotenv i) (i_environ i) session
       (i_widgets i)).

Definition run_session (session : option (list ConversationTurn))
    (runs : list Interaction) : option (list ConversationTurn) :=
  foldl step session runs.

(** The two tabs of the page, each with its topic and its block. *)
Inductive Tab := ChatTab | DiseaseTab.

Definition tab_topic (t : Tab) (w : Widgets) : option string :=
  match t with
  | ChatTab => user_input w
  | DiseaseTab => Some (disease_name w)
  end.

Definition run_tab `{GenaiClient} `{Pillow} (t : Tab) (w : Widgets) : St unit :=
  match t with
  | ChatTab => tab1 w
  | DiseaseTab => tab2 w
  end.

(** ** What a run is expected to log

    The calls and turns of a run, written as functions of the widget values:
    the guards of lines 44, 82, 110 and 142 decide which calls are made. *)

(** The calls of the chat tab: all three, or none. *)
Definition chat_calls (w : Widgets) : list GenerationRequest :=
  match user_input w with
  | Some q =>
      if Str.truthy q
      then [chat_text_request w q; chat_nutrition_request w q;
            chat_medicine_request q]
      else []
  | None => []
  end.

(** The calls of the disease tab. *)
Definition disease_calls (w : Widgets) : list GenerationRequest :=
  let d := disease_name w in
  if Str.truthy d
  then [disease_text_request d; disease_nutrition_request w d;
        disease_medicine_request d]
  else [].

(** The turns the chat tab appends when its text call is the [n]-th call. *)
Definition chat_turns `{GenaiClient} (w : Widgets) (n : nat)
    : list ConversationTurn :=
  match user_input w with
  | Some q =>
      if Str.truthy q
      then [(User, Some q);
            (Assistant,
             response_text (generate_content n (chat_text_request w q)))]
      else []
  | None => []
  end.

(** The two shapes of request the script builds. *)
Definition is_text_call (req : GenerationRequest) : Prop :=
  model req = "gemini-2.5-flash-preview-05-20"
  ∧ response_modalities req = None
  ∧ ∃ prompt, contents req = ContentsList [prompt].

Definition is_image_call (req : GenerationRequest) : Prop :=
  model req = "gemini-2.0-flash-preview-image-generation"
  ∧ response_modalities req = Some [TEXT; IMAGE]
  ∧ ∃ prompt, contents req = ContentsStr prompt.

(** Histories made of a user turn followed by an assistant turn, repeated. *)
Inductive alternating : list ConversationTurn → Prop :=
  | alternating_nil : alternating []
  | alternating_pair q a h :
      alternating h → alternating ((User, q) :: (Assistant, a) :: h).

Definition is_chat_message (e : UiEvent) : bool :=
  match e with
  | st_chat_message _ _ => true
  | _ => false
  end.

(** The bullet lines of the disease prompt. *)
Definition disease_lines : list string :=
  ["- Description of the disease"; "- Common symptoms";
   "- Recommended treatments"; "- Suggested medicines (generic if possible)";
   "- Nutrition advice if relevant"].

(** Characters of a base64 text: the alphabet and the pad. *)
Definition is_b64_char (c : ascii) : bool :=
  match Base64.sextet_of_char c with
  | Some _ => true
  | None => Ascii.eqb c Base64.pad
  end.

Fixpoint all_chars (p : ascii → bool) (s : string) : bool :=
  match s with
  | EmptyString => true
  | String c rest => p c && all_chars p rest
  end.

(** A part with the declared MIME type and the text replaced. *)
Definition relabel (mime : option string) (txt : option string) (part : Part)
    : Part :=
  {| part_text := txt;
     inline_data :=
       blob ← inline_data part;
       Some {| mime_type := mime; data := data blob |} |}.

(** ** Concrete collaborators for examples *)

Module Fixtures.

(** A client that answers the [n]-th call with the [n]-th entry. *)
Definition scripted (answers : list (Exc GenerateContentResponse))
    : GenaiClient :=
  {| generate_content n _ :=
       default (raise "503 UNAVAILABLE") (answers !! n) |}.

(** A stand-in for Pillow: an image is its PNG file; only files that
    start with the PNG signature byte are identified. *)
Definition png_only : Pillow :=
  {| Image := bytes;
     Image_open raw :=
       match raw with
       | x89%byte :: _ => inl raw
       | _ => raise "cannot identify image file"
       end;
     Image_save_PNG img := inl img |}.

Definition text_part (s : string) : Part :=
  {| part_text := Some s; inline_data := None |}.

Definition blob_part (d : option bytes) : Part :=
  {| part_text := None;
     inline_data := Some {| mime_type := Some "image/png"; data := d |} |}.

Definition response_of (t : option string) (ps : list Part)
    : GenerateContentResponse :=
  {| text := t;
     candidates := Some [ {| content := Some {| parts := Some ps |} |} ] |}.

Definition png : bytes := [x89; x50; x4e; x47]%byte.

Definition not_an_image : bytes := [x00; x01]%byte.

Definition widgets (q : option string) (d : string) : Widgets :=
  {| name := "Asha"; age := 30; gender := Male;
     user_input := q; disease_name := d |}.

Definition fresh : RunState :=
  {| chat_history := []; calls := []; page := [] |}.

Definition key_set : gmap string string :=
  {[ "GOOGLE_API_KEY" := "k-123" ]}.

(** The state of a run after the text call and the nutrition call. *)
Definition two_calls_made : RunState :=
  {| chat_history := [];
     calls := [chat_text_request (widgets (Some "fever") "") "fever";
               chat_nutrition_request (widgets (Some "fever") "") "fever"];
     page := [] |}.

(** A key with an empty value. *)
Definition key_blank : gmap string string :=
  {[ "GOOGLE_API_KEY" := "" ]}.

(** A response without any candidate. *)
Definition blocked : GenerateContentResponse :=
  {| text := None; candidates := Some [] |}.

(** The service answers every text call with an advice and every image
    call with a PNG. *)
Definition answering : GenaiClient :=
  {| generate_content _ req :=
       match response_modalities req with
       | None =>
           inl (response_of (Some "Rest and hydration")
                  [text_part "Rest and hydration"])
       | Some _ => inl (response_of None [blob_part (Some png)])
       end |}.

(** The service is down: every call raises. *)
Definition down : GenaiClient := scripted [].

(** A response with a text part, an empty envelope, a PNG and then bytes
    that are not an image; and one with no usable part. *)
Definition plate : GenerateContentResponse :=
  response_of None
    [text_part "Here is a plate."; blob_part (Some []);
     blob_part (Some png); blob_part (Some not_an_image)].

Definition hollow : GenerateContentResponse :=
  response_of None [blob_part (Some []); blob_part None].

(** The text call raises, the nutrition call returns a PNG after a text
    part and an empty envelope, the medicine call returns bytes that are
    not an image. *)
Definition mixed : GenaiClient :=
  scripted
    [inr "429 RESOURCE_EXHAUSTED";
     inl (response_of None
            [text_part "Here is a plate."; blob_part (Some []);
             blob_part (Some png); blob_part (Some not_an_image)]);
     inl (response_of None [blob_part (Some not_an_image)])].

End Fixtures.

(** * Properties *)

(** ** Strings *)

Module StrFacts.
Import Str.

Lemma app_nil_l s : "" +:+ s = s.
Proof. reflexivity. Qed.

Lemma app_cons c s t : String c s +:+ t = String c (s +:+ t).
Proof. reflexivity. Qed.

Lemma app_nil_r s : s +:+ "" = s.
Proof.
  induction s as [|c s IH]; [done|].
  by rewrite app_cons, IH.
Qed.

Lemma app_assoc s t u : (s +:+ t) +:+ u = s +:+ t +:+ u.
Proof.
  induction s as [|c s IH]; [done|].
  by rewrite !app_cons, IH.
Qed.

Lemma prefix_app s t : String.prefix s (s +:+ t) = true.
Proof.
  induction s as [|c s IH].
  - by destruct t.
  - rewrite app_cons. cbn [String.prefix].
    destruct (ascii_dec c c); [apply IH | done].
Qed.

Lemma prefix_split s h :
  String.prefix s h = true → ∃ after, h = s +:+ after.
Proof.
  revert h. induction s as [|c s IH]; intros h H.
  - by exists h.
  - destruct h as [|d h]; [done|]. cbn [String.prefix] in H.
    destruct (ascii_dec c d) as [->|]; [|done].
    destruct (IH h H) as [after ->]. by exists after.
Qed.

Lemma contains_here needle rest : contains needle (needle +:+ rest) = true.
Proof.
  destruct (needle +:+ rest) eqn:E; cbn [contains];
    rewrite <- E, prefix_app; done.
Qed.

Lemma contains_skip needle before hay :
  contains needle hay = true → contains needle (before +:+ hay) = true.
Proof.
  intros H. induction before as [|c before IH]; [done|].
  rewrite app_cons. cbn [contains]. rewrite IH. apply orb_true_r.
Qed.

(** The characterisation used everywhere below. *)
Lemma contains_app before needle after :
  contains needle (before +:+ needle +:+ after) = true.
Proof. apply contains_skip, contains_here. Qed.

Lemma contains_split needle hay :
  contains needle hay = true →
  ∃ before after, hay = before +:+ needle +:+ after.
Proof.
  induction hay as [|c hay IH]; cbn [contains]; intros H.
  - rewrite orb_false_r in H. destruct needle; [|done].
    by exists "", "".
  - apply orb_true_iff in H as [H|H].
    + destruct (prefix_split _ _ H) as [after ->]. by exists "", after.
    + destruct (IH H) as (before & after & ->).
      by exists (String c before), after.
Qed.

Lemma lower_app s t : lower (s +:+ t) = lower s +:+ lower t.
Proof.
  induction s as [|c s IH]; [done|].
  rewrite app_cons. cbn [lower]. by rewrite app_cons, IH.
Qed.

Lemma contains_grow needle hay after :
  contains needle hay = true → contains needle (hay +:+ after) = true.
Proof.
  intros (before & tail & ->)%contains_split.
  rewrite !app_assoc. apply contains_app.
Qed.

(** [needle] sits in one of the pieces of a right-nested concatenation:
    either the piece at the head is [needle] itself, or it is a literal
    that contains it, or the search moves on to the next piece. *)
Ltac find_piece :=
  repeat first
    [ apply contains_here
    | apply contains_grow; vm_compute; reflexivity
    | apply contains_skip ].

End StrFacts.

(** ** Prompt construction *)

Section Prompts.
Import Str StrFacts.

Lemma text_prompt_has_topic name age gender q :
  contains q (text_prompt name age gender q) = true.
Proof. unfold text_prompt. find_piece. Qed.

Lemma text_prompt_has_lines name age gender q :
  Forall (λ m, contains m (text_prompt name age gender q) = true)
    marker_lines.
Proof. unfold text_prompt. repeat constructor; find_piece. Qed.

Lemma text_prompt_has_words name age gender q :
  Forall (λ m, contains m (lower (text_prompt name age gender q)) = true)
    marker_words.
Proof.
  unfold text_prompt. rewrite !lower_app.
  repeat constructor; find_piece.
Qed.

(** C1.  For every name, age and gender and every non-empty topic, the
    prompt of the symptom query contains the topic verbatim and the four
    content markers: the bullet lines as the script spells them
    ("- Symptoms", ...), hence, read without regard to case, the words
    symptoms, treatments, medicines and nutrition. *)
Theorem text_prompt_topic_and_markers name age gender q :
  truthy q = true →
  let prompt := text_prompt name age gender q in
  contains q prompt = true
  ∧ Forall (λ m, contains m prompt = true) marker_lines
  ∧ Forall (λ m, contains m (lower prompt) = true) marker_words.
Proof.
  intros _ prompt. subst prompt.
  auto using text_prompt_has_topic, text_prompt_has_lines,
    text_prompt_has_words.
Qed.

Lemma text_prompt_topic_and_markers_fever :
  truthy "fever" = true
  ∧ contains "fever" (text_prompt "" 30 Male "fever") = true
  ∧ Forall (λ m, contains m (text_prompt "" 30 Male "fever") = true)
      marker_lines
  ∧ Forall (λ m, contains m (lower (text_prompt "" 30 Male "fever")) = true)
      marker_words.
Proof.
  split; [reflexivity|].
  apply (text_prompt_topic_and_markers "" 30 Male "fever"). reflexivity.
Defined.

End Prompts.

(** ** Running the sections *)

Section Run.
Context `{client : GenaiClient} `{pillow : Pillow}.

Lemma bind_run {A B} (m : St A) (k : A → St B) s a s' :
  m s = (a, s') → bind m k s = k a s'.
Proof. unfold bind. by intros ->. Qed.

Lemma emit_all_run es s :
  emit_all es s = (tt, {| chat_history := chat_history s;
                          calls := calls s;
                          page := page s ++ es |}).
Proof.
  revert s. induction es as [|e es IH]; intros s.
  - cbn. unfold ret. rewrite app_nil_r. by destruct s.
  - cbn [emit_all]. erewrite bind_run by reflexivity.
    rewrite IH. cbn. by rewrite <- app_assoc.
Qed.

Lemma display_history_run s :
  display_history s =
  (tt, {| chat_history := chat_history s;
          calls := calls s;
          page := page s ++ (show_turn <$> chat_history s) |}).
Proof.
  unfold display_history. erewrite bind_run by reflexivity.
  apply emit_all_run.
Qed.

(** An image section always returns: it logs its one call and shows the
    view of that call's outcome, whatever the state it starts from. *)
Lemma image_section_run k req s :
  image_section k req s =
  (tt, {| chat_history := chat_history s;
          calls := calls s ++ [req];
          page := page s ++ st_spinner (spinner_label k)
                    :: image_view k (generate_content (length (calls s))
                                       req) |}).
Proof.
  unfold image_section.
  erewrite bind_run by reflexivity.
  erewrite bind_run by reflexivity.
  rewrite emit_all_run. cbn. by rewrite <- app_assoc.
Qed.

Lemma chat_block_run w q s :
  let req := chat_text_request w q in
  chat_block w q s =
  (tt, {| chat_history :=
            chat_history s ++
              [(User, Some q);
               (Assistant,
                response_text (generate_content (length (calls s)) req))];
          calls := calls s ++ [req];
          page := page s ++ [st_spinner "Generating response..."] |}).
Proof.
  intros req. unfold chat_block.
  do 3 (erewrite bind_run by reflexivity).
  unfold history_append, req. cbn. by rewrite <- app_assoc.
Qed.

Lemma if_topic_empty topic body s :
  opt_truthy topic = false → if_topic topic body s = (tt, s).
Proof. by destruct topic as [[|]|]. Qed.

Lemma if_topic_some q body :
  Str.truthy q = true → if_topic (Some q) body = body q.
Proof. unfold if_topic. by intros ->. Qed.

Lemma tab1_idle w s :
  opt_truthy (user_input w) = false →
  tab1 w s =
  (tt, {| chat_history := chat_history s;
          calls := calls s;
          page := page s ++
            [st_subheader "Chat with the Medical Agent";
             st_chat_input "Describe your symptoms or ask a health-related question"]
            ++ (show_turn <$> chat_history s) |}).
Proof.
  intros Hq. unfold tab1.
  do 2 (erewrite bind_run by reflexivity).
  erewrite bind_run by (by apply if_topic_empty).
  erewrite bind_run by apply display_history_run.
  erewrite bind_run by (by apply if_topic_empty).
  rewrite if_topic_empty by done.
  unfold emit. cbn. by rewrite <- !app_assoc.
Qed.

Lemma tab1_run w q s :
  user_input w = Some q → Str.truthy q = true →
  let n := length (calls s) in
  let text_req := chat_text_request w q in
  let nutrition_req := chat_nutrition_request w q in
  let medicine_req := chat_medicine_request q in
  let history :=
    chat_history s ++
      [(User, Some q);
       (Assistant, response_text (generate_content n text_req))] in
  tab1 w s =
  (tt, {| chat_history := history;
          calls := calls s ++ [text_req; nutrition_req; medicine_req];
          page := page s ++
            [st_subheader "Chat with the Medical Agent";
             st_chat_input "Describe your symptoms or ask a health-related question";
             st_spinner "Generating response..."]
            ++ (show_turn <$> history)
            ++ st_spinner (spinner_label Nutrition)
               :: image_view Nutrition
                    (generate_content (S n) nutrition_req)
            ++ st_spinner (spinner_label Medicine)
               :: image_view Medicine
                    (generate_content (S (S n)) medicine_req) |}).
Proof.
  intros Hq Hne. cbn zeta. unfold tab1.
  rewrite Hq, !if_topic_some by done.
  do 2 (erewrite bind_run by reflexivity).
  erewrite bind_run by apply chat_block_run.
  erewrite bind_run by apply display_history_run.
  erewrite bind_run by apply image_section_run.
  rewrite image_section_run.
  unfold emit. cbn.
  rewrite !length_app. cbn.
  rewrite <- !Nat.add_assoc. cbn. rewrite Nat.add_1_r, Nat.add_comm.
  cbn. repeat rewrite <- app_assoc. cbn.
  reflexivity.
Qed.

Lemma tab2_idle w s :
  disease_name w = "" →
  tab2 w s =
  (tt, {| chat_history := chat_history s;
          calls := calls s;
          page := page s ++
            [st_subheader "Get Information About a Disease";
             st_text_input "Enter Disease Name" "disease_name"] |}).
Proof.
  intros Hd. unfold tab2.
  do 2 (erewrite bind_run by reflexivity).
  rewrite Hd. unfold emit. cbn. unfold ret. by rewrite <- app_assoc.
Qed.

Lemma tab2_run w s :
  Str.truthy (disease_name w) = true →
  let n := length (calls s) in
  let text_req := disease_text_request (disease_name w) in
  let nutrition_req := disease_nutrition_request w (disease_name w) in
  let medicine_req := disease_medicine_request (disease_name w) in
  tab2 w s =
  (tt, {| chat_history := chat_history s;
          calls := calls s ++ [text_req; nutrition_req; medicine_req];
          page := page s ++
            [st_subheader "Get Information About a Disease";
             st_text_input "Enter Disease Name" "disease_name";
             st_spinner "Generating disease information...";
             disease_view (generate_content n text_req)]
            ++ st_spinner (spinner_label Nutrition)
               :: image_view Nutrition
                    (generate_content (S n) nutrition_req)
            ++ st_spinner (spinner_label Medicine)
               :: image_view Medicine
                    (generate_content (S (S n)) medicine_req) |}).
Proof.
  intros Hne. cbn zeta. unfold tab2.
  rewrite if_topic_some by done.
  do 2 (erewrite bind_run by reflexivity).
  unfold disease_block.
  do 3 (erewrite bind_run by reflexivity).
  erewrite bind_run by apply image_section_run.
  rewrite image_section_run.
  unfold emit. cbn.
  rewrite !length_app. cbn.
  rewrite <- !Nat.add_assoc. cbn. rewrite Nat.add_1_r, Nat.add_comm.
  cbn. repeat rewrite <- app_assoc. cbn.
  reflexivity.
Qed.

Lemma page_top_run s :
  ∃ shown, page_top s = (tt, {| chat_history := chat_history s;
                                calls := calls s;
                                page := page s ++ shown |}).
Proof.
  eexists. unfold page_top.
  do 7 (erewrite bind_run by reflexivity).
  unfold emit. cbn. repeat rewrite <- app_assoc. cbn. reflexivity.
Qed.

(** What a run of the chat tab appends to the history. *)
Lemma tab1_history w s :
  ∃ new,
    chat_history (exec (tab1 w) s) = chat_history s ++ new
    ∧ (new = [] ∨ ∃ q a, new = [(User, Some q); (Assistant, a)]).
Proof.
  unfold exec. destruct (opt_truthy (user_input w)) eqn:Hq.
  - destruct (user_input w) as [q|] eqn:Hw; [|done].
    pose proof (tab1_run w q s Hw Hq) as Hrun. cbn zeta in Hrun.
    rewrite Hrun. eexists. split; [reflexivity|]. right. eauto.
  - rewrite tab1_idle by done. exists []. split; [|by left].
    cbn. by rewrite app_nil_r.
Qed.

Lemma tab2_history w s : chat_history (exec (tab2 w) s) = chat_history s.
Proof.
  unfold exec. destruct (Str.truthy (disease_name w)) eqn:Hd.
  - pose proof (tab2_run w s Hd) as Hrun. cbn zeta in Hrun.
    by rewrite Hrun.
  - rewrite tab2_idle; [done|]. by destruct (disease_name w).
Qed.

Lemma body_history w s :
  ∃ new,
    chat_history (exec (body w) s) = chat_history s ++ new
    ∧ (new = [] ∨ ∃ q a, new = [(User, Some q); (Assistant, a)]).
Proof.
  unfold exec, body.
  destruct (page_top_run s) as [shown Htop].
  erewrite bind_run by apply Htop.
  set (s1 := {| chat_history := chat_history s; calls := calls s;
                page := page s ++ shown |}).
  destruct (tab1_history w s1) as (new & Hnew & Hshape).
  exists new. split; [|done].
  unfold exec in Hnew.
  destruct (tab1 w s1) as [[] s2] eqn:H1. erewrite bind_run by apply H1.
  pose proof (tab2_history w s2) as H2. unfold exec in H2.
  destruct (tab2 w s2) as [[] s3] eqn:H3. erewrite bind_run by apply H3.
  unfold footer, emit. cbn in *. congruence.
Qed.

(** C3.  With an empty topic (no chat input, or an empty one, in the chat
    tab; an empty disease name in the disease tab) the tab issues no
    remote call: the log of calls is unchanged, so the call count is 0. *)
Theorem empty_topic_no_remote_call t w s :
  opt_truthy (tab_topic t w) = false →
  calls (exec (run_tab t w) s) = calls s
  ∧ length (calls (exec (run_tab t w) s)) - length (calls s) = 0.
Proof.
  intros Hq.
  assert (calls (exec (run_tab t w) s) = calls s) as ->;
    [|split; [done | lia]].
  unfold exec. destruct t; cbn [run_tab tab_topic] in *.
  - by rewrite tab1_idle.
  - rewrite tab2_idle; [done|]. by destruct (disease_name w).
Qed.

(** A whole run with both topics empty calls the service not at all. *)
Lemma main_idle_no_remote_call dotenv environ session w :
  opt_truthy (user_input w) = false → disease_name w = "" →
  remote_calls (main dotenv environ session w) = [].
Proof.
  intros Hq Hd. unfold main.
  destruct (negb _); [done|]. cbn [remote_calls].
  unfold exec, body.
  destruct (page_top_run {| chat_history := init_history session;
                            calls := []; page := [] |}) as [shown Htop].
  erewrite bind_run by apply Htop.
  erewrite bind_run by (by apply tab1_idle).
  erewrite bind_run by (by apply tab2_idle).
  reflexivity.
Qed.

(** C4.  When the text call of the chat tab raises, the assistant turn
    appended to the history is the error text built from the exception's
    message, and the nutrition and medicine image calls are issued all
    the same. *)
Theorem text_failure_recorded_images_still_called w q s e :
  user_input w = Some q → Str.truthy q = true →
  generate_content (length (calls s)) (chat_text_request w q) = inr e →
  let s' := exec (tab1 w) s in
  let msg := "Error generating medical info: " +:+ e in
  chat_history s' = chat_history s ++ [(User, Some q); (Assistant, Some msg)]
  ∧ Str.contains e msg = true
  ∧ calls s' = calls s ++ [chat_text_request w q;
                           chat_nutrition_request w q;
                           chat_medicine_request q].
Proof.
  intros Hq Hne Hfail s' msg. subst s' msg. unfold exec.
  pose proof (tab1_run w q s Hq Hne) as Hrun. cbn zeta in Hrun.
  rewrite Hrun, Hfail. cbn [snd chat_history calls response_text].
  split; [done|]. split; [|done].
  apply StrFacts.contains_skip. rewrite <- (StrFacts.app_nil_r e) at 2.
  apply StrFacts.contains_here.
Qed.

(** C5.  Each of the three remote calls of the chat tab, with the decoding
    that follows an image call, sits in its own [try]: whatever the three
    outcomes are (a response, or an exception of the call, of the
    extraction or of Pillow), all three calls are issued, and the page
    shows the text turn, the nutrition view and the medicine view, each
    computed from the outcome of its own call alone. *)
Theorem chat_sections_independently_guarded w q s :
  user_input w = Some q → Str.truthy q = true →
  let n := length (calls s) in
  let text_outcome := generate_content n (chat_text_request w q) in
  let nutrition_outcome :=
    generate_content (S n) (chat_nutrition_request w q) in
  let medicine_outcome :=
    generate_content (S (S n)) (chat_medicine_request q) in
  let history :=
    chat_history s ++
      [(User, Some q); (Assistant, response_text text_outcome)] in
  exec (tab1 w) s =
  {| chat_history := history;
     calls := calls s ++ [chat_text_request w q;
                          chat_nutrition_request w q;
                          chat_medicine_request q];
     page := page s ++
       [st_subheader "Chat with the Medical Agent";
        st_chat_input "Describe your symptoms or ask a health-related question";
        st_spinner "Generating response..."]
       ++ (show_turn <$> history)
       ++ st_spinner (spinner_label Nutrition)
          :: image_view Nutrition nutrition_outcome
       ++ st_spinner (spinner_label Medicine)
          :: image_view Medicine medicine_outcome |}.
Proof.
  intros Hq Hne. cbn zeta. unfold exec.
  pose proof (tab1_run w q s Hq Hne) as Hrun. cbn zeta in Hrun.
  by rewrite Hrun.
Qed.

End Run.

(** ** The conversation history across runs *)

Section History.

Lemma step_shape session i :
  step session i = session
  ∨ ∃ new,
      step session i = Some (init_history session ++ new)
      ∧ (new = [] ∨ ∃ q a, new = [(User, Some q); (Assistant, a)]).
Proof.
  unfold step, main. destruct (negb _); [by left|]. right.
  cbn [session_chat_history].
  destruct (@body_history (i_client i) (i_pillow i) (i_widgets i)
              {| chat_history := init_history session;
                 calls := []; page := [] |}) as (new & Hnew & Hshape).
  exists new. by rewrite Hnew.
Qed.

Lemma step_prefix session i :
  init_history session `prefix_of` init_history (step session i).
Proof.
  destruct (step_shape session i) as [->|(new & -> & _)]; [done|].
  by exists new.
Qed.

Lemma run_session_prefix runs : ∀ session,
  init_history session `prefix_of` init_history (run_session session runs).
Proof.
  induction runs as [|i runs IH]; intros session; [done|].
  cbn [run_session foldl]. etrans; [apply step_prefix | apply IH].
Qed.

(** C6.  The history is append-only.  One run either leaves the session
    untouched (the start-up halt) or stores the old history followed by
    nothing or by one user turn and one assistant turn; over any sequence
    of runs the history at the start is a prefix of the history at the
    end, so no stored turn is removed, moved or changed. *)
Theorem chat_history_append_only session i runs :
  (step session i = session
   ∨ ∃ new,
       step session i = Some (init_history session ++ new)
       ∧ (new = [] ∨ ∃ q a, new = [(User, Some q); (Assistant, a)]))
  ∧ init_history session `prefix_of` init_history (run_session session runs).
Proof. split; [apply step_shape | apply run_session_prefix]. Qed.

End History.

(** ** Start-up *)

Section Startup.
Context `{client : GenaiClient} `{pillow : Pillow}.

Lemma main_halts_without_key dotenv environ session w :
  opt_truthy (os_getenv (load_dotenv dotenv environ) "GOOGLE_API_KEY")
    = false →
  main dotenv environ session w =
  {| session_chat_history := session;
     remote_calls := [];
     rendered := [st_error "Missing GOOGLE_API_KEY in .env"; st_stop] |}.
Proof. intros Hkey. unfold main. by rewrite Hkey. Qed.

(** C9.  When the key is absent from the environment the script reads
    (the process environment after [load_dotenv]), the run ends at
    [st.stop()]: the page holds the error message and nothing else, no
    widget is drawn, the session is untouched and no remote call is
    issued, whatever the client would have answered. *)
Theorem missing_api_key_halts dotenv environ session w :
  os_getenv (load_dotenv dotenv environ) "GOOGLE_API_KEY" = None →
  main dotenv environ session w =
  {| session_chat_history := session;
     remote_calls := [];
     rendered := [st_error "Missing GOOGLE_API_KEY in .env"; st_stop] |}.
Proof. intros Hkey. apply main_halts_without_key. by rewrite Hkey. Qed.

(** The key is absent exactly when neither source provides it. *)
Lemma key_absent_iff dotenv environ key :
  os_getenv (load_dotenv dotenv environ) key = None
  ↔ environ !! key = None ∧ dotenv !! key = None.
Proof. unfold os_getenv, load_dotenv. apply lookup_union_None. Qed.

(** An empty value halts the run as well ([if not api_key]). *)
Lemma empty_api_key_halts dotenv environ session w :
  os_getenv (load_dotenv dotenv environ) "GOOGLE_API_KEY" = Some "" →
  remote_calls (main dotenv environ session w) = [].
Proof. intros Hkey. rewrite main_halts_without_key; [done|by rewrite Hkey]. Qed.

End Startup.

(** ** Extraction of the image *)

Section Extraction.
Context `{pillow : Pillow}.

(** The generator's filter holds exactly for a part with an envelope and
    non-empty bytes in it. *)
Lemma carries_inline_data_spec part :
  carries_inline_data part = true
  ↔ ∃ blob b raw, inline_data part = Some blob ∧ data blob = Some (b :: raw).
Proof.
  unfold carries_inline_data, bytes_truthy. split.
  - destruct (inline_data part) as [blob|]; [|done].
    destruct (data blob) as [[|b raw]|] eqn:Hd; [done| |done].
    intros _. by exists blob, b, raw.
  - intros (blob & b & raw & -> & ->). done.
Qed.

Lemma next_inline_data_skip before rest :
  Forall (λ p, carries_inline_data p = false) before →
  next_inline_data (before ++ rest) = next_inline_data rest.
Proof.
  induction 1 as [|p before Hp _ IH]; [done|].
  cbn [app next_inline_data]. by rewrite Hp.
Qed.

Lemma next_inline_data_none ps :
  Forall (λ p, carries_inline_data p = false) ps →
  next_inline_data ps = None.
Proof.
  intros Hps. rewrite <- (app_nil_r ps). by rewrite next_inline_data_skip.
Qed.

Lemma next_inline_data_nonempty ps : next_inline_data ps ≠ Some [].
Proof.
  induction ps as [|p ps IH]; [done|]. cbn [next_inline_data].
  destruct (carries_inline_data p) eqn:Hp; [|done].
  apply carries_inline_data_spec in Hp as (blob & b & raw & -> & Hd).
  cbn. by rewrite Hd.
Qed.

Lemma img_bytes_nonempty r : img_bytes r ≠ inl (Some []).
Proof.
  unfold img_bytes. destruct (response_parts r) as [ps|e]; [|done].
  cbn. intros [=Hps]. by apply next_inline_data_nonempty in Hps.
Qed.

(** The view of a response in which nothing was found. *)
Lemma image_view_nothing k r :
  img_bytes r = inl None →
  image_view k (inl r) = [st_warning (no_image_text k)].
Proof. intros Hr. unfold image_view, image_try. cbn. by rewrite Hr. Qed.

(** C2, as the script has it.  For a response that has a list of content
    parts (the list
    [candidates[0].content.parts]), the extraction walks the parts in
    order and returns the bytes of the first part that carries inline
    data, one value at most; when no part carries inline data it returns
    [None] without raising, and the section shows the "no image" notice,
    not an error. *)
Theorem first_inline_image_or_empty r ps :
  response_parts r = inl ps →
  (∀ before part after,
     ps = before ++ part :: after →
     Forall (λ p, carries_inline_data p = false) before →
     carries_inline_data part = true →
     ∃ blob raw,
       inline_data part = Some blob ∧ data blob = Some raw ∧ raw ≠ []
       ∧ img_bytes r = inl (Some raw) ∧ med_img_bytes r = inl (Some raw))
  ∧ (Forall (λ p, carries_inline_data p = false) ps →
     img_bytes r = inl None ∧ med_img_bytes r = inl None
     ∧ ∀ k, image_view k (inl r) = [st_warning (no_image_text k)]).
Proof.
  intros Hps.
  assert (img_bytes r = inl (next_inline_data ps)) as Hr.
  { unfold img_bytes. by rewrite Hps. }
  unfold med_img_bytes. split.
  - intros before part after -> Hbefore Hpart.
    pose proof Hpart as (blob & b & raw & Hblob & Hd)%carries_inline_data_spec.
    exists blob, (b :: raw). rewrite Hr, next_inline_data_skip by done.
    cbn [next_inline_data]. rewrite Hpart, Hblob. cbn. by rewrite Hd.
  - intros Hnone. rewrite Hr, next_inline_data_none by done.
    repeat split. intros k. apply image_view_nothing.
    by rewrite Hr, next_inline_data_none.
Qed.

(** C10.  A part whose inline-data envelope is present while its data is
    absent or empty does not pass the filter, which asks for the envelope
    and for non-empty bytes; a response whose parts are all of this kind
    gives [None], shown as the "no image" notice, and nothing ever gives
    empty bytes. *)
Theorem empty_envelope_is_not_an_image r ps :
  response_parts r = inl ps →
  Forall empty_envelope ps →
  Forall (λ p, carries_inline_data p = false) ps
  ∧ img_bytes r = inl None
  ∧ med_img_bytes r = inl None
  ∧ img_bytes r ≠ inl (Some [])
  ∧ ∀ k, image_view k (inl r) = [st_warning (no_image_text k)].
Proof.
  intros Hps Hall.
  assert (Forall (λ p, carries_inline_data p = false) ps) as Hnone.
  { eapply Forall_impl; [exact Hall|].
    intros p (blob & Hblob & [Hd|Hd]);
      unfold carries_inline_data; by rewrite Hblob, Hd. }
  assert (img_bytes r = inl None) as Hr.
  { unfold img_bytes. rewrite Hps. cbn. by rewrite next_inline_data_none. }
  unfold med_img_bytes. repeat split; try done.
  - apply img_bytes_nonempty.
  - intros k. by apply image_view_nothing.
Qed.

(** A response without a list of parts (no candidate, no content, or no
    parts in it) makes the chain of attribute accesses raise inside the
    [try]: the section then shows the handler's error message. *)
Lemma image_view_no_parts k r e :
  response_parts r = inr e →
  image_view k (inl r) = [st_error (error_prefix k +:+ e)].
Proof.
  intros Hr. unfold image_view, image_try, img_bytes. cbn. by rewrite Hr.
Qed.

(** The view of a response whose bytes Pillow cannot open. *)
Lemma image_view_undecodable k r raw e :
  img_bytes r = inl (Some raw) → Image_open raw = inr e →
  image_view k (inl r) = [st_error (error_prefix k +:+ e)].
Proof.
  intros Hr He. unfold image_view, image_try. cbn. rewrite Hr.
  destruct raw as [|b raw]; [by apply img_bytes_nonempty in Hr|].
  cbn. unfold img_str. by rewrite He.
Qed.

End Extraction.

(** ** A failing decode *)

Section Decode.
Context `{client : GenaiClient} `{pillow : Pillow}.

(** C7, as the script has it.  When Pillow cannot open the bytes that
    were extracted, the exception is caught inside the section: the
    section shows an error message ([st.error] with the section's prefix
    and the exception's text), and whatever follows the section on the
    page runs from the state the section left, with the call logged and
    the history as it was. *)
Theorem undecodable_image_shows_error_page_continues
    k req s resp raw e (rest : St unit) :
  generate_content (length (calls s)) req = inl resp →
  img_bytes resp = inl (Some raw) →
  Image_open raw = inr e →
  exec (image_section k req ;; rest) s =
  exec rest {| chat_history := chat_history s;
               calls := calls s ++ [req];
               page := page s ++ [st_spinner (spinner_label k);
                                  st_error (error_prefix k +:+ e)] |}.
Proof.
  intros Hcall Hfound Hopen. unfold exec.
  erewrite bind_run by apply image_section_run.
  by rewrite Hcall, (image_view_undecodable k resp raw e).
Qed.

End Decode.

(** C7 as worded asks for a warning: with bytes that are not an image, the
    section shows an error message and no warning. *)
Lemma undecodable_image_shows_no_warning :
  let resp :=
    Fixtures.response_of None
      [Fixtures.blob_part (Some Fixtures.not_an_image)] in
  img_bytes resp = inl (Some Fixtures.not_an_image)
  ∧ @Image_open Fixtures.png_only Fixtures.not_an_image
    = inr "cannot identify image file"
  ∧ @image_view Fixtures.png_only Nutrition (inl resp)
    = [st_error "Nutrition image error: cannot identify image file"]
  ∧ ¬ ∃ body,
        st_warning body ∈ @image_view Fixtures.png_only Nutrition (inl resp).
Proof.
  cbn zeta. repeat split.
  intros [body Hin]. vm_compute in Hin.
  apply list_elem_of_singleton in Hin. discriminate Hin.
Qed.

(** C2 as worded speaks of every response: a response without any
    candidate carries no image, yet the extraction raises on it
    ([candidates[0]] on an empty list) instead of returning [None], and the
    section shows the handler's error message, not the "no image" notice. *)
Lemma no_candidate_is_an_error_not_empty :
  candidates Fixtures.blocked = Some []
  ∧ img_bytes Fixtures.blocked = inr "list index out of range"
  ∧ med_img_bytes Fixtures.blocked = inr "list index out of range"
  ∧ img_bytes Fixtures.blocked ≠ inl None
  ∧ @image_view Fixtures.png_only Nutrition (inl Fixtures.blocked)
    = [st_error "Nutrition image error: list index out of range"]
  ∧ ¬ ∃ body,
        st_warning body
        ∈ @image_view Fixtures.png_only Nutrition (inl Fixtures.blocked).
Proof.
  repeat split; [discriminate|].
  intros [body Hin]. vm_compute in Hin.
  apply list_elem_of_singleton in Hin. discriminate Hin.
Qed.

(** ** base64 *)

Module Base64Facts.
Import Base64.
Local Open Scope N_scope.

Ltac div_lia := zify; Z.to_euclidean_division_equations; lia.

(** The bits of three bytes, cut into sextets and put together again. *)
Lemma first_byte x y :
  x < 256 → y < 256 → x / 4 * 4 + (x mod 4 * 16 + y / 16) / 16 = x.
Proof. intros. div_lia. Qed.

Lemma first_byte_alone x : x < 256 → x / 4 * 4 + x mod 4 * 16 / 16 = x.
Proof. intros. div_lia. Qed.

Lemma second_byte x y z :
  x < 256 → y < 256 → z < 256 →
  (x mod 4 * 16 + y / 16) mod 16 * 16 + (y mod 16 * 4 + z / 64) / 4 = y.
Proof. intros. div_lia. Qed.

Lemma second_byte_last x y :
  x < 256 → y < 256 →
  (x mod 4 * 16 + y / 16) mod 16 * 16 + y mod 16 * 4 / 4 = y.
Proof. intros. div_lia. Qed.

Lemma third_byte y z :
  y < 256 → z < 256 → (y mod 16 * 4 + z / 64) mod 4 * 64 + z mod 64 = z.
Proof. intros. div_lia. Qed.

Lemma byte_bound a : Byte.to_N a < 256.
Proof. pose proof (Byte.to_N_bounded a). lia. Qed.

(** Every sextet has its own character, and none of them is the pad. *)
Lemma sextet_of_char_of_sextet n :
  n < 64 →
  sextet_of_char (char_of_sextet n) = Some n
  ∧ Ascii.eqb (char_of_sextet n) pad = false.
Proof.
  intros Hn. rewrite <- (N2Nat.id n).
  assert (N.to_nat n < 64)%nat as Hm by lia.
  generalize dependent (N.to_nat n). clear. intros m Hm.
  do 64 (destruct m as [|m]; [vm_compute; done|]). lia.
Qed.

Lemma list_ind3 {A} (P : list A → Prop) :
  P [] → (∀ a, P [a]) → (∀ a b, P [a; b]) →
  (∀ a b c l, P l → P (a :: b :: c :: l)) → ∀ l, P l.
Proof.
  intros H0 H1 H2 H3 l.
  enough (P l ∧ (∀ a, P (a :: l)) ∧ (∀ a b, P (a :: b :: l))) by tauto.
  induction l as [|c l (IH0 & IH1 & IH2)]; [by auto|].
  repeat split; auto.
Qed.

Lemma b64decode_group c1 c2 c3 c4 rest :
  b64decode (String c1 (String c2 (String c3 (String c4 rest)))) =
  (s1 ← sextet_of_char c1;
   s2 ← sextet_of_char c2;
   b1 ← Byte.of_N (s1 * 4 + s2 / 16);
   if Ascii.eqb c3 pad then
     if Ascii.eqb c4 pad && is_empty rest then Some [b1] else None
   else
     s3 ← sextet_of_char c3;
     b2 ← Byte.of_N (s2 mod 16 * 16 + s3 / 4);
     if Ascii.eqb c4 pad then
       if is_empty rest then Some [b1; b2] else None
     else
       s4 ← sextet_of_char c4;
       b3 ← Byte.of_N (s3 mod 4 * 64 + s4);
       tl ← b64decode rest;
       Some (b1 :: b2 :: b3 :: tl)).
Proof. reflexivity. Qed.

(** Read back the character of the sextet [n] in the goal. *)
Ltac sextet n :=
  let H := fresh in
  let E := fresh in
  assert (n < 64) as H by div_lia;
  destruct (sextet_of_char_of_sextet n H) as [-> E];
  try rewrite E; clear H E; cbn [mbind option_bind].

(** Put the byte [a] back together with the equation [Hbits]. *)
Ltac byte Hbits :=
  rewrite Hbits, Byte.of_to_N by done; cbn [mbind option_bind].

Lemma b64decode_b64encode bs : b64decode (b64encode bs) = Some bs.
Proof.
  induction bs as [|a|a b|a b c bs IH] using list_ind3; [done| | |];
    pose proof (byte_bound a) as Ha;
    cbn [b64encode]; rewrite b64decode_group;
    sextet (Byte.to_N a / 4).
  - sextet (Byte.to_N a mod 4 * 16). byte first_byte_alone. done.
  - pose proof (byte_bound b).
    sextet (Byte.to_N a mod 4 * 16 + Byte.to_N b / 16). byte first_byte.
    sextet (Byte.to_N b mod 16 * 4). byte second_byte_last. done.
  - pose proof (byte_bound b). pose proof (byte_bound c).
    sextet (Byte.to_N a mod 4 * 16 + Byte.to_N b / 16). byte first_byte.
    sextet (Byte.to_N b mod 16 * 4 + Byte.to_N c / 64). byte second_byte.
    sextet (Byte.to_N c mod 64). byte third_byte.
    by rewrite IH.
Qed.

Lemma b64encode_inj bs1 bs2 : b64encode bs1 = b64encode bs2 → bs1 = bs2.
Proof.
  intros Heq. apply (inj Some).
  by rewrite <- !b64decode_b64encode, Heq.
Qed.

End Base64Facts.

(** ** The image codec *)

Section Codec.
Context `{pillow : Pillow}.

(** C8.  Round trip.  For bytes that Pillow opens as an image and saves
    as PNG, lines 97-100 return a base64 string, and decoding that string
    gives back, byte for byte, the PNG file Pillow wrote for the decoded
    image: the same image in the fixed output format. *)
Theorem img_str_round_trip raw img png :
  Image_open raw = inl img →
  Image_save_PNG img = inl png →
  ∃ b64, img_str raw = inl b64 ∧ Base64.b64decode b64 = Some png.
Proof.
  intros Hopen Hsave. exists (Base64.b64encode png). split.
  - unfold img_str. rewrite Hopen. cbn. by rewrite Hsave.
  - apply Base64Facts.b64decode_b64encode.
Qed.

End Codec.

(** ** The theorems at concrete inputs *)

Section Examples.
Import Fixtures.

Lemma first_inline_image_or_empty_plate :
  response_parts plate
  = inl [text_part "Here is a plate."; blob_part (Some []);
         blob_part (Some png); blob_part (Some not_an_image)]
  ∧ img_bytes plate = inl (Some png).
Proof.
  split; [reflexivity|].
  destruct (first_inline_image_or_empty (pillow := png_only) plate _ eq_refl)
    as [Hfirst _].
  destruct (Hfirst [text_part "Here is a plate."; blob_part (Some [])]
              (blob_part (Some png)) [blob_part (Some not_an_image)]
              eq_refl ltac:(repeat constructor) eq_refl)
    as (blob & raw & Hblob & Hdata & _ & Hfound & _).
  injection Hblob as <-. injection Hdata as <-. exact Hfound.
Defined.

Lemma empty_topic_no_remote_call_idle :
  opt_truthy (tab_topic ChatTab (widgets None "flu")) = false
  ∧ calls (exec (run_tab (H := down) (H0 := png_only) ChatTab
                   (widgets None "flu")) fresh) = [].
Proof.
  split; [reflexivity|].
  apply (empty_topic_no_remote_call (client := down) (pillow := png_only)
           ChatTab (widgets None "flu") fresh).
  reflexivity.
Defined.

Lemma text_failure_recorded_images_still_called_mixed :
  user_input (widgets (Some "fever") "") = Some "fever"
  ∧ Str.truthy "fever" = true
  ∧ generate_content (GenaiClient := mixed) 0
      (chat_text_request (widgets (Some "fever") "") "fever")
    = inr "429 RESOURCE_EXHAUSTED"
  ∧ chat_history (exec (tab1 (H := mixed) (H0 := png_only)
                          (widgets (Some "fever") "")) fresh)
    = [(User, Some "fever");
       (Assistant,
        Some "Error generating medical info: 429 RESOURCE_EXHAUSTED")]
  ∧ length (calls (exec (tab1 (H := mixed) (H0 := png_only)
                           (widgets (Some "fever") "")) fresh)) = 3.
Proof.
  do 3 (split; [reflexivity|]).
  destruct (text_failure_recorded_images_still_called
              (client := mixed) (pillow := png_only)
              (widgets (Some "fever") "") "fever" fresh
              "429 RESOURCE_EXHAUSTED" eq_refl eq_refl eq_refl)
    as (Hhistory & _ & Hcalls).
  split; [exact Hhistory | by rewrite Hcalls].
Defined.

Lemma chat_sections_independently_guarded_mixed :
  user_input (widgets (Some "fever") "") = Some "fever"
  ∧ Str.truthy "fever" = true
  ∧ page (exec (tab1 (H := mixed) (H0 := png_only)
                  (widgets (Some "fever") "")) fresh)
    = [st_subheader "Chat with the Medical Agent";
       st_chat_input "Describe your symptoms or ask a health-related question";
       st_spinner "Generating response...";
       st_chat_message "user" (Some "fever");
       st_chat_message "assistant"
         (Some "Error generating medical info: 429 RESOURCE_EXHAUSTED");
       st_spinner "Generating nutrition image...";
       st_markdown (Some (heading Nutrition)) true;
       st_markdown (Some (img_tag "iVBORw==")) true;
       st_spinner "Generating medicine image...";
       st_error "Medicine image error: cannot identify image file"].
Proof.
  do 2 (split; [reflexivity|]).
  rewrite (chat_sections_independently_guarded
             (client := mixed) (pillow := png_only)
             (widgets (Some "fever") "") "fever" fresh eq_refl eq_refl).
  reflexivity.
Defined.

Lemma missing_api_key_halts_empty_environment :
  os_getenv (load_dotenv ∅ ∅) "GOOGLE_API_KEY" = None
  ∧ main (H := down) (H0 := png_only) ∅ ∅ None (widgets (Some "fever") "flu")
    = {| session_chat_history := None;
         remote_calls := [];
         rendered := [st_error "Missing GOOGLE_API_KEY in .env"; st_stop] |}.
Proof.
  split; [reflexivity|].
  apply (missing_api_key_halts (client := down) (pillow := png_only)).
  reflexivity.
Defined.

Lemma empty_envelope_is_not_an_image_hollow :
  response_parts hollow = inl [blob_part (Some []); blob_part None]
  ∧ Forall empty_envelope [blob_part (Some []); blob_part None]
  ∧ img_bytes hollow = inl None
  ∧ image_view (H := png_only) Medicine (inl hollow)
    = [st_warning "No medicine image received."].
Proof.
  assert (Forall empty_envelope [blob_part (Some []); blob_part None]) as Hall.
  { repeat constructor; eexists; (split; [reflexivity|]); [by right | by left]. }
  split; [reflexivity|]. split; [exact Hall|].
  destruct (empty_envelope_is_not_an_image (pillow := png_only) hollow _
              eq_refl Hall) as (_ & Hnone & _ & _ & Hview).
  split; [exact Hnone | exact (Hview Medicine)].
Defined.

Lemma undecodable_image_shows_error_page_continues_footer :
  generate_content (GenaiClient := mixed) 2
    (chat_medicine_request "fever")
  = inl (response_of None [blob_part (Some not_an_image)])
  ∧ img_bytes (response_of None [blob_part (Some not_an_image)])
    = inl (Some not_an_image)
  ∧ Image_open (Pillow := png_only) not_an_image
    = inr "cannot identify image file"
  ∧ page (exec (image_section (H := mixed) (H0 := png_only) Medicine
                  (chat_medicine_request "fever") ;; footer)
            two_calls_made)
    = [st_spinner "Generating medicine image...";
       st_error "Medicine image error: cannot identify image file";
       st_markdown (Some "<footer style='text-align:center; margin-top:3rem;'>Powered by Gemini 2.5 Flash & Gemini Image API</footer>") true].
Proof.
  do 3 (split; [reflexivity|]).
  rewrite (undecodable_image_shows_error_page_continues
             (client := mixed) (pillow := png_only) Medicine
             (chat_medicine_request "fever") two_calls_made
             (response_of None [blob_part (Some not_an_image)])
             not_an_image "cannot identify image file" footer
             eq_refl eq_refl eq_refl).
  reflexivity.
Defined.

Lemma img_str_round_trip_png :
  Image_open (Pillow := png_only) png = inl png
  ∧ Image_save_PNG (Pillow := png_only) png = inl png
  ∧ ∃ b64, img_str (H := png_only) png = inl b64
           ∧ Base64.b64decode b64 = Some png.
Proof.
  do 2 (split; [reflexivity|]).
  apply (img_str_round_trip (pillow := png_only) png png png); reflexivity.
Defined.

End Examples.

(** * Further properties of the script *)

(** ** The other prompts *)

Section MorePrompts.
Import Str StrFacts.

(** The head of the text is the first piece of [needle]: regroup and
    compare, or move on. *)
Ltac find_pair :=
  repeat first
    [ rewrite <- app_assoc; apply contains_here
    | apply contains_skip ].

(** X1.  The symptom-query prompt carries the sidebar's values under their
    labels: the name as typed, the age in decimal and the gender option. *)
Theorem text_prompt_embeds_user_context name age gender q :
  let prompt := text_prompt name age gender q in
  contains ("Patient Name: " +:+ name) prompt = true
  ∧ contains ("Age: " +:+ pretty age) prompt = true
  ∧ contains ("Gender: " +:+ gender_str gender) prompt = true
  ∧ contains ("The user asked: " +:+ q) prompt = true.
Proof. cbn zeta. unfold text_prompt. repeat split; find_pair. Qed.

(** X2.  The disease prompt contains the disease name verbatim, right
    after its label, and the five bullet lines of the literal. *)
Theorem disease_prompt_topic_and_lines d :
  contains ("about the disease: " +:+ d) (disease_prompt d) = true
  ∧ contains d (disease_prompt d) = true
  ∧ Forall (λ m, contains m (disease_prompt d) = true) disease_lines.
Proof.
  unfold disease_prompt. split; [|split].
  - apply contains_skip, contains_skip.
    rewrite <- (app_assoc _ d).
    apply contains_grow.
    change "You are a trusted medical assistant. Give a comprehensive explanation about the disease: "
      with ("You are a trusted medical assistant. Give a comprehensive explanation "
            +:+ "about the disease: ").
    rewrite app_assoc. apply contains_skip.
    rewrite <- (app_nil_r ("about the disease: " +:+ d)) at 2.
    apply contains_here.
  - find_piece.
  - repeat constructor; find_piece.
Qed.

(** X3.  The four image prompts quote the topic verbatim; the two
    nutrition prompts also carry the age in decimal and the gender. *)
Theorem image_prompts_embed_topic age gender q :
  contains ("'" +:+ q +:+ "'") (nutrition_prompt age gender q) = true
  ∧ contains ("Age: " +:+ pretty age) (nutrition_prompt age gender q) = true
  ∧ contains ("Gender: " +:+ gender_str gender)
      (nutrition_prompt age gender q) = true
  ∧ contains ("'" +:+ q +:+ "'") (medicine_prompt q) = true
  ∧ contains q (disease_nutrition_prompt age gender q) = true
  ∧ contains ("Age: " +:+ pretty age)
      (disease_nutrition_prompt age gender q) = true
  ∧ contains ("Gender: " +:+ gender_str gender)
      (disease_nutrition_prompt age gender q) = true
  ∧ contains q (disease_medicine_prompt q) = true.
Proof.
  unfold nutrition_prompt, medicine_prompt, disease_nutrition_prompt,
    disease_medicine_prompt.
  repeat split.
  - change "Photorealistic nutrition plate for a person with symptoms or condition described as: '"
      with ("Photorealistic nutrition plate for a person with symptoms or condition described as: " +:+ "'").
    change "'. Age: " with ("'" +:+ ". Age: ").
    rewrite !app_assoc. apply contains_skip.
    rewrite <- (app_assoc q), <- (app_assoc "'" (q +:+ "'")).
    apply contains_here.
  - apply contains_skip, contains_skip.
    change "'. Age: " with ("'. " +:+ "Age: ").
    rewrite app_assoc. apply contains_skip.
    rewrite <- app_assoc. apply contains_here.
  - do 4 apply contains_skip.
    change ", Gender: " with (", " +:+ "Gender: ").
    rewrite app_assoc. apply contains_skip.
    rewrite <- app_assoc. apply contains_here.
  - change "High-resolution image of common medicines or treatment kits based on symptoms: '"
      with ("High-resolution image of common medicines or treatment kits based on symptoms: " +:+ "'").
    change "', using WHO or Mayo Clinic guidance. White background."
      with ("'" +:+ ", using WHO or Mayo Clinic guidance. White background.").
    rewrite !app_assoc. apply contains_skip.
    rewrite <- (app_assoc q), <- (app_assoc "'" (q +:+ "'")).
    apply contains_here.
  - find_piece.
  - apply contains_skip, contains_skip.
    change ", based on WHO/Mayo Clinic dietary guidance. Age: "
      with (", based on WHO/Mayo Clinic dietary guidance. " +:+ "Age: ").
    rewrite app_assoc. apply contains_skip.
    rewrite <- app_assoc. apply contains_here.
  - do 4 apply contains_skip.
    change ", Gender: " with (", " +:+ "Gender: ").
    rewrite app_assoc. apply contains_skip.
    rewrite <- app_assoc. apply contains_here.
  - find_piece.
Qed.

End MorePrompts.

(** ** Whole runs *)

Section MoreRuns.
Context `{client : GenaiClient} `{pillow : Pillow}.

(** The log of a run of the body: the chat tab's turns and calls, then the
    disease tab's calls. *)
Lemma body_log w s :
  chat_history (exec (body w) s)
  = chat_history s ++ chat_turns w (length (calls s))
  ∧ calls (exec (body w) s) = calls s ++ chat_calls w ++ disease_calls w.
Proof.
  unfold exec, body.
  destruct (page_top_run s) as [shown Htop].
  erewrite bind_run by apply Htop.
  set (s1 := {| chat_history := chat_history s; calls := calls s;
                page := page s ++ shown |}).
  assert (∃ s2, tab1 w s1 = (tt, s2)
                ∧ chat_history s2
                  = chat_history s ++ chat_turns w (length (calls s))
                ∧ calls s2 = calls s ++ chat_calls w) as (s2 & H1 & Hh2 & Hc2).
  { unfold chat_turns, chat_calls.
    destruct (opt_truthy (user_input w)) eqn:Hq.
    - destruct (user_input w) as [q|] eqn:Hw; [|done]. cbn in Hq.
      pose proof (tab1_run w q s1 Hw Hq) as Hrun. cbn zeta in Hrun.
      rewrite Hq. eexists. split; [exact Hrun|]. done.
    - eexists. split; [by apply tab1_idle|]. cbn [chat_history calls].
      destruct (user_input w) as [q|]; cbn in Hq; [rewrite Hq|];
        by rewrite !app_nil_r. }
  erewrite bind_run by apply H1.
  assert (∃ s3, tab2 w s2 = (tt, s3)
                ∧ chat_history s3 = chat_history s2
                ∧ calls s3 = calls s2 ++ disease_calls w)
    as (s3 & H3 & Hh3 & Hc3).
  { unfold disease_calls. cbn zeta.
    destruct (Str.truthy (disease_name w)) eqn:Hd.
    - pose proof (tab2_run w s2 Hd) as Hrun. cbn zeta in Hrun.
      eexists. split; [exact Hrun|]. done.
    - eexists. split; [apply tab2_idle; by destruct (disease_name w)|].
      cbn [chat_history calls]. by rewrite app_nil_r. }
  erewrite bind_run by apply H3.
  unfold footer, emit. cbn [snd chat_history calls].
  rewrite Hh3, Hh2, Hc3, Hc2. by rewrite <- app_assoc.
Qed.

(** X4.  With a non-empty disease name the disease tab issues its three
    calls in order, shows the text (or the text call's error), then the
    nutrition view and the medicine view, each computed from the outcome of
    its own call, and leaves the chat history as it was. *)
Theorem disease_sections_independently_guarded w s :
  Str.truthy (disease_name w) = true →
  let n := length (calls s) in
  let d := disease_name w in
  exec (tab2 w) s =
  {| chat_history := chat_history s;
     calls := calls s ++ [disease_text_request d;
                          disease_nutrition_request w d;
                          disease_medicine_request d];
     page := page s ++
       [st_subheader "Get Information About a Disease";
        st_text_input "Enter Disease Name" "disease_name";
        st_spinner "Generating disease information...";
        disease_view (generate_content n (disease_text_request d))]
       ++ st_spinner (spinner_label Nutrition)
          :: image_view Nutrition
               (generate_content (S n) (disease_nutrition_request w d))
       ++ st_spinner (spinner_label Medicine)
          :: image_view Medicine
               (generate_content (S (S n)) (disease_medicine_request d)) |}.
Proof.
  intros Hd. cbn zeta. unfold exec.
  pose proof (tab2_run w s Hd) as Hrun. cbn zeta in Hrun.
  by rewrite Hrun.
Qed.

(** X5.  Once the key is found, the calls of a run are those of the chat
    tab followed by those of the disease tab: none, three or six, decided
    by the two topics alone and not by what the service answers. *)
Theorem main_call_log dotenv environ session w :
  opt_truthy (os_getenv (load_dotenv dotenv environ) "GOOGLE_API_KEY")
    = true →
  remote_calls (main dotenv environ session w)
  = chat_calls w ++ disease_calls w.
Proof.
  intros Hkey. unfold main. rewrite Hkey. cbn [negb remote_calls].
  by destruct (body_log w {| chat_history := init_history session;
                             calls := []; page := [] |}) as [_ ->].
Qed.

(** X6.  Every call of every run is one of the two shapes the script
    builds: the text model with a one-element list of prompts and no
    configuration, or the image model with one prompt string and the
    modalities TEXT and IMAGE. *)
Theorem every_call_is_text_or_image dotenv environ session w :
  Forall (λ req, is_text_call req ∨ is_image_call req)
    (remote_calls (main dotenv environ session w)).
Proof.
  unfold main. destruct (negb _); [constructor|]. cbn [remote_calls].
  destruct (body_log w {| chat_history := init_history session;
                          calls := []; page := [] |}) as [_ ->].
  assert (∀ prompt, is_text_call (text_request prompt)) as Htext.
  { intros prompt. repeat split. by exists prompt. }
  assert (∀ prompt, is_image_call (image_request prompt)) as Himage.
  { intros prompt. repeat split. by exists prompt. }
  cbn [calls app]. apply Forall_app. split.
  - unfold chat_calls. destruct (user_input w) as [q|]; [|constructor].
    destruct (Str.truthy q); [|constructor].
    constructor; [left; apply Htext|].
    constructor; [right; apply Himage|].
    constructor; [right; apply Himage|]. apply Forall_nil_2.
  - unfold disease_calls. cbn zeta.
    destruct (Str.truthy (disease_name w)); [|constructor].
    constructor; [left; apply Htext|].
    constructor; [right; apply Himage|].
    constructor; [right; apply Himage|]. apply Forall_nil_2.
Qed.

(** X7.  A disease lookup is never recorded: in a run without chat input
    the stored history is the one the session had, whatever the disease
    name is and whatever the service answers. *)
Theorem disease_lookup_not_recorded dotenv environ session w :
  opt_truthy (os_getenv (load_dotenv dotenv environ) "GOOGLE_API_KEY")
    = true →
  opt_truthy (user_input w) = false →
  session_chat_history (main dotenv environ session w)
  = Some (init_history session).
Proof.
  intros Hkey Hq. unfold main. rewrite Hkey. cbn [negb session_chat_history].
  destruct (body_log w {| chat_history := init_history session;
                          calls := []; page := [] |}) as [-> _].
  cbn [chat_history]. unfold chat_turns.
  destruct (user_input w) as [q|]; cbn in Hq; [rewrite Hq|];
    by rewrite app_nil_r.
Qed.

(** X8.  When the text call of the chat tab returns, the run stores the
    user's message verbatim and then the response's text, unchanged, as
    the assistant's turn. *)
Theorem text_success_recorded dotenv environ session w q response :
  opt_truthy (os_getenv (load_dotenv dotenv environ) "GOOGLE_API_KEY")
    = true →
  user_input w = Some q → Str.truthy q = true →
  generate_content 0 (chat_text_request w q) = inl response →
  session_chat_history (main dotenv environ session w)
  = Some (init_history session
            ++ [(User, Some q); (Assistant, text response)]).
Proof.
  intros Hkey Hw Hq Hcall. unfold main.
  rewrite Hkey. cbn [negb session_chat_history].
  destruct (body_log w {| chat_history := init_history session;
                          calls := []; page := [] |}) as [-> _].
  cbn [chat_history calls length]. unfold chat_turns.
  by rewrite Hw, Hq, Hcall.
Qed.

(** X9.  An empty value of the key halts the run exactly as a missing key
    does ([if not api_key]): the error message, [st.stop()], no call, the
    session untouched. *)
Theorem empty_api_key_halts_like_missing dotenv environ session w :
  os_getenv (load_dotenv dotenv environ) "GOOGLE_API_KEY" = Some "" →
  main dotenv environ session w =
  {| session_chat_history := session;
     remote_calls := [];
     rendered := [st_error "Missing GOOGLE_API_KEY in .env"; st_stop] |}.
Proof. intros Hkey. apply main_halts_without_key. by rewrite Hkey. Qed.

End MoreRuns.

(** ** What an image section shows *)

Section MoreViews.
Context `{client : GenaiClient} `{pillow : Pillow}.

(** X10.  An image section shows exactly one of three things: the heading
    and one image, when the call returned, a part carried bytes, and Pillow
    opened them and saved the PNG whose base64 text is embedded; the
    "no image" warning, when the call returned and no part carried bytes;
    or one error message with the section's prefix. *)
Theorem image_view_cases k r :
  (∃ response raw img png,
     r = inl response
     ∧ img_bytes response = inl (Some raw)
     ∧ Image_open raw = inl img
     ∧ Image_save_PNG img = inl png
     ∧ image_view k r
       = [st_markdown (Some (heading k)) true;
          st_markdown (Some (img_tag (Base64.b64encode png))) true])
  ∨ (∃ response,
       r = inl response
       ∧ img_bytes response = inl None
       ∧ image_view k r = [st_warning (no_image_text k)])
  ∨ (∃ e, image_view k r = [st_error (error_prefix k +:+ e)]).
Proof.
  unfold image_view, image_try.
  destruct r as [response|e]; cbn [exc_bind]; [|right; right; by exists e].
  destruct (img_bytes response) as [[[|b raw]|]|e] eqn:Hfound;
    cbn [exc_bind].
  - by apply img_bytes_nonempty in Hfound.
  - unfold img_str.
    destruct (Image_open (b :: raw)) as [img|e] eqn:Hopen; cbn [exc_bind];
      [|right; right; by exists e].
    destruct (Image_save_PNG img) as [png|e] eqn:Hsave; cbn [exc_bind];
      [|right; right; by exists e].
    left. by exists response, (b :: raw), img, png.
  - right; left. by exists response.
  - right; right. by exists e.
Qed.

(** The view of an image section holds no chat message. *)
Lemma image_view_no_chat_message k r :
  Forall (λ e, is_chat_message e = false) (image_view k r).
Proof.
  unfold image_view, image_try.
  destruct r as [response|e]; cbn [exc_bind]; [|by repeat constructor].
  destruct (img_bytes response) as [[[|b raw]|]|e]; cbn [exc_bind];
    try by repeat constructor.
  unfold img_str.
  destruct (Image_open (b :: raw)) as [img|e]; cbn [exc_bind];
    [|by repeat constructor].
  destruct (Image_save_PNG img) as [png|e]; cbn [exc_bind];
    by repeat constructor.
Qed.

(** X11.  A response without a list of parts (no candidates at all, an
    empty list of candidates, a first candidate without content, or content
    without parts) ends in the handler of the section: one error message
    with the text of the exception, and no warning. *)
Theorem missing_parts_shows_error k r :
  (candidates r = None ∨ candidates r = Some []
   ∨ ∃ c cs, candidates r = Some (c :: cs)
             ∧ (content c = None
                ∨ ∃ ct, content c = Some ct ∧ parts ct = None)) →
  ∃ e, response_parts r = inr e
       ∧ img_bytes r = inr e
       ∧ image_view k (inl r) = [st_error (error_prefix k +:+ e)].
Proof.
  intros Hmissing.
  assert (∃ e, response_parts r = inr e) as [e He].
  { unfold response_parts.
    destruct Hmissing as [->|[->|(c & cs & -> & [->|(ct & -> & ->)])]];
      by eexists. }
  exists e. split; [done|].
  unfold image_view, image_try, img_bytes. cbn. by rewrite He.
Qed.

(** X12.  The chat tab shows the stored history in full: after its text
    section the page lists one chat message per stored turn, in order,
    the turns of this run included, and no other chat message. *)
Theorem chat_tab_shows_whole_history w s :
  ∃ before after,
    page (exec (tab1 w) s)
    = page s ++ before ++ (show_turn <$> chat_history (exec (tab1 w) s))
        ++ after
    ∧ Forall (λ e, is_chat_message e = false) before
    ∧ Forall (λ e, is_chat_message e = false) after.
Proof.
  unfold exec. destruct (opt_truthy (user_input w)) eqn:Hq.
  - destruct (user_input w) as [q|] eqn:Hw; [|done]. cbn in Hq.
    pose proof (tab1_run w q s Hw Hq) as Hrun. cbn zeta in Hrun.
    rewrite Hrun. cbn [snd page chat_history].
    eexists [_; _; _], _. split; [reflexivity|]. split.
    + by repeat constructor.
    + constructor; [done|]. apply Forall_app. split.
      * apply image_view_no_chat_message.
      * constructor; [done|]. apply image_view_no_chat_message.
  - rewrite tab1_idle by done. cbn [snd page chat_history].
    eexists [_; _], []. rewrite app_nil_r.
    split; [reflexivity|]. split; by repeat constructor.
Qed.

End MoreViews.

(** ** The shape of the history *)

Section MoreHistory.

Lemma alternating_app h new :
  alternating h → alternating new → alternating (h ++ new).
Proof.
  induction 1 as [|q a h _ IH]; intros Hnew; [done|].
  cbn. constructor. by apply IH.
Qed.

Lemma step_alternating session i :
  alternating (init_history session) →
  alternating (init_history (step session i)).
Proof.
  intros Hh.
  destruct (step_shape session i) as [->|(new & -> & Hnew)]; [done|].
  cbn [init_history]. apply alternating_app; [done|].
  destruct Hnew as [->|(q & a & ->)]; repeat constructor.
Qed.

Lemma run_session_alternating runs : ∀ session,
  alternating (init_history session) →
  alternating (init_history (run_session session runs)).
Proof.
  induction runs as [|i runs IH]; intros session Hh; [done|].
  cbn [run_session foldl]. by apply IH, step_alternating.
Qed.

(** X13.  In a session that starts without a history, the stored history
    is at all times a sequence of pairs, a user turn followed by an
    assistant turn: whatever the runs are, no user turn is left without its
    answer and the number of turns is even. *)
Theorem session_history_alternates runs :
  alternating (init_history (run_session None runs))
  ∧ Nat.Even (length (init_history (run_session None runs))).
Proof.
  assert (alternating (init_history (run_session None runs))) as Halt.
  { apply run_session_alternating. constructor. }
  split; [done|].
  induction Halt as [|q a h _ [n Hn]]; [by exists 0|].
  exists (S n). cbn [length]. lia.
Qed.

End MoreHistory.

(** ** The base64 text *)

Section MoreBase64.
Context `{pillow : Pillow}.
Import Base64 Base64Facts.

Lemma char_of_sextet_is_b64 n :
  (n < 64)%N → is_b64_char (char_of_sextet n) = true.
Proof.
  intros Hn. unfold is_b64_char.
  by destruct (sextet_of_char_of_sextet n Hn) as [-> _].
Qed.

Lemma b64encode_chars bs : all_chars is_b64_char (b64encode bs) = true.
Proof.
  induction bs as [|a|a b|a b c bs IH] using list_ind3; [done| | |];
    pose proof (byte_bound a);
    cbn [b64encode all_chars];
    [|pose proof (byte_bound b)
     |pose proof (byte_bound b); pose proof (byte_bound c); rewrite IH];
    rewrite !char_of_sextet_is_b64 by div_lia; done.
Qed.

Lemma all_chars_not_contains p c s :
  all_chars p s = true → p c = false →
  Str.contains (String c EmptyString) s = false.
Proof.
  intros Hs Hc. induction s as [|d s IH]; [done|].
  cbn [all_chars] in Hs. apply andb_true_iff in Hs as [Hd Hs].
  cbn [Str.contains String.prefix]. rewrite (IH Hs), orb_false_r.
  destruct (ascii_dec c d) as [->|]; [congruence|done].
Qed.

(** X14.  The text embedded in the page's [img] tag is made of the
    sixty-four letters of the alphabet and the pad only; in particular it
    holds no quote, so it cannot end the [src] attribute it is written
    into. *)
Theorem img_str_is_markup_safe raw b64 :
  img_str raw = inl b64 →
  all_chars is_b64_char b64 = true
  ∧ Str.contains "'" b64 = false
  ∧ Str.contains "<" b64 = false
  ∧ Str.contains ">" b64 = false.
Proof.
  unfold img_str. intros Hstr.
  destruct (Image_open raw) as [img|]; [|done]. cbn in Hstr.
  destruct (Image_save_PNG img) as [png|]; [|done]. cbn in Hstr.
  injection Hstr as <-.
  pose proof (b64encode_chars png) as Hchars.
  repeat split; [done|..]; by eapply all_chars_not_contains.
Qed.

(** X15.  The base64 text of [n] bytes has four characters for every
    group of three bytes, the last group padded: its length is
    [4 * ((n + 2) / 3)]. *)
Theorem b64encode_length bs :
  String.length (b64encode bs) = 4 * ((length bs + 2) / 3).
Proof.
  induction bs as [|a|a b|a b c bs IH] using list_ind3; [done..|].
  cbn [b64encode String.length length]. rewrite IH.
  replace (S (S (S (length bs))) + 2) with (1 * 3 + (length bs + 2)) by lia.
  rewrite Nat.div_add_l by lia. lia.
Qed.

(** X16.  Different files have different base64 texts: the encoding loses
    nothing. *)
Theorem b64encode_distinct bs1 bs2 :
  bs1 ≠ bs2 → b64encode bs1 ≠ b64encode bs2.
Proof.
  intros Hne Heq. apply Hne, (inj Some).
  by rewrite <- !b64decode_b64encode, Heq.
Qed.

End MoreBase64.

(** ** What the extraction does not look at *)

Section MoreExtraction.

(** X17.  The extraction reads the bytes only: the declared MIME type of
    the inline data and the text of the parts play no role, so bytes
    declared as anything else than an image are taken all the same. *)
Theorem extraction_ignores_mime_type mime txt ps :
  next_inline_data (relabel mime txt <$> ps) = next_inline_data ps.
Proof.
  induction ps as [|part ps IH]; [done|].
  cbn [fmap list_fmap next_inline_data].
  unfold carries_inline_data, relabel at 1 2. cbn [inline_data].
  destruct (inline_data part) as [blob|]; cbn; [|exact IH].
  destruct (bytes_truthy (data blob)); [done | exact IH].
Qed.

End MoreExtraction.

(** ** The further properties at concrete inputs *)

Section MoreExamples.
Import Fixtures.

Lemma disease_sections_independently_guarded_down :
  Str.truthy (disease_name (widgets None "flu")) = true
  ∧ calls (exec (tab2 (H := down) (H0 := png_only) (widgets None "flu"))
             fresh)
    = [disease_text_request "flu";
       disease_nutrition_request (widgets None "flu") "flu";
       disease_medicine_request "flu"]
  ∧ page (exec (tab2 (H := down) (H0 := png_only) (widgets None "flu"))
            fresh)
    = [st_subheader "Get Information About a Disease";
       st_text_input "Enter Disease Name" "disease_name";
       st_spinner "Generating disease information...";
       st_error "Error generating disease info: 503 UNAVAILABLE";
       st_spinner "Generating nutrition image...";
       st_error "Nutrition image error: 503 UNAVAILABLE";
       st_spinner "Generating medicine image...";
       st_error "Medicine image error: 503 UNAVAILABLE"].
Proof.
  split; [reflexivity|].
  rewrite (disease_sections_independently_guarded
             (client := down) (pillow := png_only)
             (widgets None "flu") fresh eq_refl).
  split; reflexivity.
Defined.

Lemma main_call_log_six :
  opt_truthy (os_getenv (load_dotenv key_set ∅) "GOOGLE_API_KEY") = true
  ∧ length (remote_calls
              (main (H := down) (H0 := png_only) key_set ∅ None
                 (widgets (Some "fever") "flu"))) = 6.
Proof.
  split; [reflexivity|].
  rewrite (main_call_log (client := down) (pillow := png_only)
             key_set ∅ None (widgets (Some "fever") "flu"))
    by reflexivity.
  reflexivity.
Defined.

Lemma disease_lookup_not_recorded_flu :
  opt_truthy (os_getenv (load_dotenv key_set ∅) "GOOGLE_API_KEY") = true
  ∧ opt_truthy (user_input (widgets None "flu")) = false
  ∧ session_chat_history
      (main (H := answering) (H0 := png_only) key_set ∅
         (Some [(User, Some "hello"); (Assistant, Some "hi")])
         (widgets None "flu"))
    = Some [(User, Some "hello"); (Assistant, Some "hi")].
Proof.
  do 2 (split; [reflexivity|]).
  apply (disease_lookup_not_recorded (client := answering)
           (pillow := png_only)); reflexivity.
Defined.

Lemma text_success_recorded_advice :
  opt_truthy (os_getenv (load_dotenv ∅ key_set) "GOOGLE_API_KEY") = true
  ∧ user_input (widgets (Some "fever") "") = Some "fever"
  ∧ Str.truthy "fever" = true
  ∧ generate_content (GenaiClient := answering) 0
      (chat_text_request (widgets (Some "fever") "") "fever")
    = inl (response_of (Some "Rest and hydration")
             [text_part "Rest and hydration"])
  ∧ session_chat_history
      (main (H := answering) (H0 := png_only) ∅ key_set None
         (widgets (Some "fever") ""))
    = Some [(User, Some "fever"); (Assistant, Some "Rest and hydration")].
Proof.
  do 4 (split; [reflexivity|]).
  apply (text_success_recorded (client := answering) (pillow := png_only)
           ∅ key_set None (widgets (Some "fever") "") "fever"
           (response_of (Some "Rest and hydration")
              [text_part "Rest and hydration"]));
    reflexivity.
Defined.

Lemma empty_api_key_halts_like_missing_blank :
  os_getenv (load_dotenv key_blank ∅) "GOOGLE_API_KEY" = Some ""
  ∧ main (H := answering) (H0 := png_only) key_blank ∅ None
      (widgets (Some "fever") "flu")
    = {| session_chat_history := None;
         remote_calls := [];
         rendered := [st_error "Missing GOOGLE_API_KEY in .env"; st_stop] |}.
Proof.
  split; [reflexivity|].
  apply (empty_api_key_halts_like_missing (client := answering)
           (pillow := png_only)).
  reflexivity.
Defined.

Lemma missing_parts_shows_error_blocked :
  candidates blocked = Some []
  ∧ ∃ e, response_parts blocked = inr e
         ∧ img_bytes blocked = inr e
         ∧ image_view (H := png_only) Nutrition (inl blocked)
           = [st_error (error_prefix Nutrition +:+ e)].
Proof.
  split; [reflexivity|].
  apply (missing_parts_shows_error (pillow := png_only) Nutrition blocked).
  right; left. reflexivity.
Defined.

Lemma img_str_is_markup_safe_png :
  img_str (H := png_only) png = inl "iVBORw=="
  ∧ all_chars is_b64_char "iVBORw==" = true
  ∧ Str.contains "'" "iVBORw==" = false
  ∧ Str.contains "<" "iVBORw==" = false
  ∧ Str.contains ">" "iVBORw==" = false.
Proof.
  split; [reflexivity|].
  apply (img_str_is_markup_safe (pillow := png_only) png "iVBORw==").
  reflexivity.
Defined.

Lemma b64encode_distinct_bytes :
  [x00]%byte ≠ [x01]%byte
  ∧ Base64.b64encode [x00]%byte ≠ Base64.b64encode [x01]%byte.
Proof.
  assert ([x00]%byte ≠ [x01]%byte) as Hne by discriminate.
  split; [exact Hne | exact (b64encode_distinct _ _ Hne)].
Defined.

End MoreExamples.
